(** * Spend-Smart: the insight/nudge engine of [server/src/services/aiService.js]

    A shallow embedding of [AIService]: the nudge evaluators, the
    prioritizer, the spending-trend aggregator and the data gatherer.
    Monetary amounts, ratios and percentages are modelled as exact
    rationals [Q]; the database reads are modelled as results of a
    [backend] record that may fail. *)

From Stdlib Require Import List String Ascii ZArith QArith Qabs Qround Sorting.Sorted Sorting.Permutation Lia Lqa.
Import ListNotations.
Open Scope Z_scope.
Open Scope string_scope.

(* ------------------------------------------------------------------ *)
(** ** Constants of [config/constants.js] *)

Module NUDGE_TYPES.
Definition WEEKEND_SPENDING := "weekend_spending".
Definition BUDGET_OVERAGE := "budget_overage".
Definition SPENDING_TREND := "spending_trend".
Definition STREAK_CELEBRATION := "streak_celebration".
Definition CATEGORY_PATTERN := "category_pattern".
Definition SAVINGS_MILESTONE := "savings_milestone".
Definition all := [WEEKEND_SPENDING; BUDGET_OVERAGE; SPENDING_TREND;
                   STREAK_CELEBRATION; CATEGORY_PATTERN; SAVINGS_MILESTONE].
End NUDGE_TYPES.

Module NUDGE_PRIORITY.
Definition HIGH := "high".
Definition MEDIUM := "medium".
Definition LOW := "low".
End NUDGE_PRIORITY.

(* ------------------------------------------------------------------ *)
(** ** Data *)

(** A JS value stored in a nudge's [metadata] object. *)
Inductive mval :=
| MNum (q : Q)
| MStr (s : string)
| MBool (b : bool).

(** A nudge object.  Its [id] is the template string
    [`${prefix}_..._${Date.now()}`]: [id_prefix] is the part before the
    category id (if any) and [id_ts] the trailing [Date.now()] value,
    which is what [parseInt(id.split('_').pop())] reads back.  The title,
    message and prompt template are display strings and are left out. *)
Record nudge := mkNudge {
  id_prefix : string;
  id_ts : Z;
  type : string;
  priority : string;
  actionable : bool;
  metadata : list (string * mval)
}.

(** An expense document: [day_of_week] is [moment(expense.date).day()]
    (0 = Sunday, ..., 6 = Saturday). *)
Record expense := mkExpense {
  amount : Q;
  day_of_week : nat;
  categoryId : string
}.

(** A category document; [monthlyBudget = None] is an absent budget. *)
Record category := mkCategory {
  cat_id : string;
  cat_userId : string;
  cat_name : string;
  cat_isActive : bool;
  monthlyBudget : option Q
}.

(** [user.streak]. *)
Record streak := mkStreak {
  current : Z;
  longest : Z
}.

(* ------------------------------------------------------------------ *)
(** ** Helpers for JS numbers and comparisons *)

Definition Qltb (x y : Q) : bool := negb (Qle_bool y x).
Definition Qleb (x y : Q) : bool := Qle_bool x y.

(** [parseFloat(x.toFixed(d))]: [toFixed] rounds the magnitude to [d]
    decimals, ties away from zero, and puts the sign back. *)
Definition toFixed (d : nat) (x : Q) : Q :=
  let s := inject_Z (10 ^ Z.of_nat d)%Z in
  let roundMagnitude (y : Q) := (inject_Z (Qfloor (y * s + (1 # 2))) / s)%Q in
  if Qltb x 0 then (- roundMagnitude (- x))%Q else roundMagnitude x.

Definition sumQ (l : list Q) : Q := fold_left Qplus l 0%Q.

(** [arr.reduce((sum, e) => sum + e.amount, 0) / arr.length]. *)
Definition average (es : list expense) : Q :=
  (sumQ (map amount es) / inject_Z (Z.of_nat (List.length es)))%Q.

(* ------------------------------------------------------------------ *)
(** ** Stable sorting: [Array.prototype.sort] with a comparator

    Since ES2019 [sort] is stable; for a consistent comparator its result
    is the unique stable ordering, computed here by insertion sort.
    [le a b] holds when the comparator returns [<= 0] for [(a, b)]. *)

Section StableSort.
Context {A : Type} (le : A -> A -> bool).

Fixpoint insert_by (x : A) (l : list A) : list A :=
  match l with
  | [] => [x]
  | y :: t => if le x y then x :: y :: t else y :: insert_by x t
  end.

Fixpoint sort_by (l : list A) : list A :=
  match l with
  | [] => []
  | x :: t => insert_by x (sort_by t)
  end.
End StableSort.

(* ------------------------------------------------------------------ *)
(** ** [prioritizeNudges] *)

(** [priorityOrder[p] || 3]. *)
Definition priorityOrder (p : string) : Z :=
  if String.eqb p NUDGE_PRIORITY.HIGH then 1
  else if String.eqb p NUDGE_PRIORITY.MEDIUM then 2
  else 3.

(** The comparator passed to [nudges.sort]. *)
Definition compareNudges (a b : nudge) : Z :=
  let priorityA := priorityOrder (priority a) in
  let priorityB := priorityOrder (priority b) in
  if negb (Z.eqb priorityA priorityB) then priorityA - priorityB
  else id_ts b - id_ts a.

Definition nudge_le (a b : nudge) : bool := Z.leb (compareNudges a b) 0.

Definition prioritizeNudges (nudges : list nudge) : list nudge :=
  sort_by nudge_le nudges.

(** [this.prioritizeNudges(nudges).slice(0, 5)]. *)
Definition selectNudges (nudges : list nudge) : list nudge :=
  firstn 5 (prioritizeNudges nudges).

(* ------------------------------------------------------------------ *)
(** ** Errors and awaited database reads

    An awaited call either resolves ([Ok]) or rejects / throws ([Err]).
    [x <- c ;; k] is [const x = await c; k]. *)

Inductive error :=
| DbError (msg : string)
| TypeError (msg : string).

Inductive result (A : Type) :=
| Ok (a : A)
| Err (e : error).
Arguments Ok {A} a.
Arguments Err {A} e.

Definition bind {A B} (c : result A) (k : A -> result B) : result B :=
  match c with Ok a => k a | Err e => Err e end.

Notation "x <- c ;; k" := (bind c (fun x => k))
  (at level 61, c at next level, right associativity).

(** The reads [AIService] makes against MongoDB and the wall clock.
    [categoryCollection] is the [Category] collection as returned by the
    store (or the store's failure); the other reads are already scoped to
    the user and the requested window.  [getTotalSpending] is given for
    the current window ([true]) and the previous window ([false]), which
    [analyzeSpendingTrendsForNudge] and [analyzeSpendingTrends] compute
    identically. *)
Record backend := mkBackend {
  expenseQuery : result (list expense);
  categoryCollection : result (list category);
  userQuery : result (option streak);
  getCategorySpendingThisMonth : string -> result Q;
  getTotalSpending : bool -> result Q;
  getCategorySpending : string -> result Q;
  dateNow : Z;
  remainingDaysInMonth : Z
}.

(* ------------------------------------------------------------------ *)
(** ** Data gatherer *)

(** [Expense.find({userId, isActive: true, date: {$gte, $lte}})].  Its
    [.populate('categoryId', 'name color')] is not modelled: an expense's
    [categoryId] here is its category's id string, as the category-pattern
    detector compares it, whereas the populated document prints as
    something else. *)
Definition getUserExpenses (b : backend) : result (list expense) :=
  expenseQuery b.

(** [Category.find({ userId, isActive: true })]. *)
Definition getUserCategories (b : backend) (userId : string)
  : result (list category) :=
  cs <- categoryCollection b ;;
  Ok (filter (fun c => String.eqb (cat_userId c) userId && cat_isActive c) cs).

(** [User.findById(userId)]: [None] when no user document exists. *)
Definition getUserInfo (b : backend) : result (option streak) := userQuery b.

(** Reading [user.streak] from [user]: a [TypeError] on [null]. *)
Definition userStreak (user : option streak) : result streak :=
  match user with
  | Some s => Ok s
  | None => Err (TypeError "Cannot read properties of null (reading 'streak')")
  end.

(* ------------------------------------------------------------------ *)
(** ** [detectWeekendSpending] *)

Definition isWeekend (e : expense) : bool :=
  Nat.eqb (day_of_week e) 0 || Nat.eqb (day_of_week e) 6.

Definition isWeekday (e : expense) : bool :=
  Nat.leb 1 (day_of_week e) && Nat.leb (day_of_week e) 5.

Definition weekendExpenses (es : list expense) := filter isWeekend es.
Definition weekdayExpenses (es : list expense) := filter isWeekday es.

Definition weekendRatio (es : list expense) : Q :=
  (average (weekendExpenses es) / average (weekdayExpenses es))%Q.

Definition detectWeekendSpending (now : Z) (expenses : list expense)
  : option nudge :=
  let weekend := weekendExpenses expenses in
  let weekday := weekdayExpenses expenses in
  if Nat.eqb (List.length weekend) 0 || Nat.eqb (List.length weekday) 0 then None
  else
    let weekendAvg := average weekend in
    let weekdayAvg := average weekday in
    let ratio := (weekendAvg / weekdayAvg)%Q in
    if Qltb 1.8 ratio then
      Some {| id_prefix := "weekend_spending";
              id_ts := now;
              type := NUDGE_TYPES.WEEKEND_SPENDING;
              priority := if Qltb 2.5 ratio then NUDGE_PRIORITY.HIGH
                          else NUDGE_PRIORITY.MEDIUM;
              actionable := true;
              metadata := [("ratio", MNum (toFixed 2 ratio));
                           ("weekendAvg", MNum (toFixed 2 weekendAvg));
                           ("weekdayAvg", MNum (toFixed 2 weekdayAvg))] |}
    else None.

(* ------------------------------------------------------------------ *)
(** ** [detectBudgetOverspend] *)

(** [!category.monthlyBudget || category.monthlyBudget <= 0]. *)
Definition budgetSkipped (c : category) : bool :=
  match monthlyBudget c with
  | None => true
  | Some m => Qleb m 0
  end.

Definition budgetOf (c : category) : Q :=
  match monthlyBudget c with Some m => m | None => 0%Q end.

Definition budgetPercentage (c : category) (spentThisMonth : Q) : Q :=
  (spentThisMonth / budgetOf c * 100)%Q.

(** The body of the loop for one category whose spending this month is
    [spentThisMonth]. *)
Definition budgetNudge (now remainingDays : Z) (c : category)
  (spentThisMonth : Q) : list nudge :=
  let percentage := budgetPercentage c spentThisMonth in
  let common := [("categoryId", MStr (cat_id c));
                 ("categoryName", MStr (cat_name c));
                 ("budget", MNum (budgetOf c));
                 ("spent", MNum spentThisMonth);
                 ("percentage", MNum (toFixed 1 percentage))] in
  if Qleb 100 percentage then
    [{| id_prefix := "budget_overage";
        id_ts := now;
        type := NUDGE_TYPES.BUDGET_OVERAGE;
        priority := NUDGE_PRIORITY.HIGH;
        actionable := true;
        metadata := common |}]
  else if Qleb 80 percentage then
    [{| id_prefix := "budget_warning";
        id_ts := now;
        type := NUDGE_TYPES.BUDGET_OVERAGE;
        priority := NUDGE_PRIORITY.MEDIUM;
        actionable := true;
        metadata := (common ++ [("remainingDays", MNum (inject_Z remainingDays))])%list |}]
  else [].

Fixpoint detectBudgetOverspend (b : backend) (categories : list category)
  : result (list nudge) :=
  match categories with
  | [] => Ok []
  | c :: cs =>
      if budgetSkipped c then detectBudgetOverspend b cs
      else
        spentThisMonth <- getCategorySpendingThisMonth b (cat_id c) ;;
        rest <- detectBudgetOverspend b cs ;;
        Ok (budgetNudge (dateNow b) (remainingDaysInMonth b) c spentThisMonth ++ rest)%list
  end.

(* ------------------------------------------------------------------ *)
(** ** [analyzeSpendingTrendsForNudge] *)

Definition changePercentageOf (currentPeriodTotal previousPeriodTotal : Q) : Q :=
  ((currentPeriodTotal - previousPeriodTotal) / previousPeriodTotal * 100)%Q.

(** The part after [Promise.all] has delivered both totals. *)
Definition trendNudge (now : Z) (currentPeriodTotal previousPeriodTotal : Q)
  : option nudge :=
  if Qeq_bool previousPeriodTotal 0 then None
  else
    let changePercentage := changePercentageOf currentPeriodTotal previousPeriodTotal in
    let md := [("currentPeriodTotal", MNum (toFixed 2 currentPeriodTotal));
               ("previousPeriodTotal", MNum (toFixed 2 previousPeriodTotal));
               ("changePercentage", MNum (toFixed 1 changePercentage))] in
    if Qltb (Qabs changePercentage) 15 then None
    else if Qltb 15 changePercentage then
      Some {| id_prefix := "spending_increase";
              id_ts := now;
              type := NUDGE_TYPES.SPENDING_TREND;
              priority := NUDGE_PRIORITY.MEDIUM;
              actionable := true;
              metadata := md |}
    else if Qltb changePercentage (-10) then
      Some {| id_prefix := "spending_decrease";
              id_ts := now;
              type := NUDGE_TYPES.SPENDING_TREND;
              priority := NUDGE_PRIORITY.LOW;
              actionable := false;
              metadata := md |}
    else None.

Definition analyzeSpendingTrendsForNudge (b : backend) : result (option nudge) :=
  currentPeriodTotal <- getTotalSpending b true ;;
  previousPeriodTotal <- getTotalSpending b false ;;
  Ok (trendNudge (dateNow b) currentPeriodTotal previousPeriodTotal).

(* ------------------------------------------------------------------ *)
(** ** [generateMotivationalNudges] *)

Definition motivationalNudges (now : Z) (s : streak) : list nudge :=
  let current := current s in
  let longest := longest s in
  (if Z.eqb current 7 then
     [{| id_prefix := "streak_7";
         id_ts := now;
         type := NUDGE_TYPES.STREAK_CELEBRATION;
         priority := NUDGE_PRIORITY.LOW;
         actionable := false;
         metadata := [("streakDays", MNum (inject_Z current))] |}]
   else [])
  ++
  (if Z.eqb current longest && Z.ltb (longest - 1) current && Z.ltb 0 current then
     [{| id_prefix := "personal_best";
         id_ts := now;
         type := NUDGE_TYPES.STREAK_CELEBRATION;
         priority := NUDGE_PRIORITY.LOW;
         actionable := false;
         metadata := [("streakDays", MNum (inject_Z current));
                      ("personalBest", MBool true)] |}]
   else []).

(** [const { current, longest } = user.streak] throws on a [null] user. *)
Definition generateMotivationalNudges (now : Z) (user : option streak)
  : result (list nudge) :=
  s <- userStreak user ;;
  Ok (motivationalNudges now s).

(* ------------------------------------------------------------------ *)
(** ** [detectCategoryPatterns] *)

(** Grouping into the [categoryExpenses] object: keys in insertion order
    (ObjectId strings are never array indices), each list in input order. *)
Fixpoint groupAdd (k : string) (e : expense) (g : list (string * list expense))
  : list (string * list expense) :=
  match g with
  | [] => [(k, [e])]
  | (k', es) :: g' =>
      if String.eqb k k' then (k', (es ++ [e])%list) :: g'
      else (k', es) :: groupAdd k e g'
  end.

Definition groupByCategory (expenses : list expense)
  : list (string * list expense) :=
  fold_left (fun g e => groupAdd (categoryId e) e g) expenses [].

(** [.sort((a, b) => b - a)]: [a] may stay before [b] when [b - a <= 0]. *)
Definition sortDescending (l : list Q) : list Q :=
  sort_by (fun a b => Qleb (b - a) 0) l.

Definition spikeMedian (amounts : list Q) : Q :=
  nth (Nat.div (List.length amounts) 2) amounts 0%Q.

Definition spikeLargest (amounts : list Q) : Q := nth 0 amounts 0%Q.

Definition smallPurchaseNudge (now : Z) (categoryId : string) (c : category)
  (es : list expense) : list nudge :=
  let smallPurchases := filter (fun e => Qltb (amount e) 200) es in
  if Nat.leb 10 (List.length smallPurchases) then
    [{| id_prefix := "small_purchases";
        id_ts := now;
        type := NUDGE_TYPES.CATEGORY_PATTERN;
        priority := NUDGE_PRIORITY.MEDIUM;
        actionable := true;
        metadata := [("categoryId", MStr categoryId);
                     ("categoryName", MStr (cat_name c));
                     ("count", MNum (inject_Z (Z.of_nat (List.length smallPurchases))));
                     ("totalAmount", MNum (toFixed 2 (sumQ (map amount smallPurchases))))] |}]
  else [].

Definition spikeNudge (now : Z) (categoryId : string) (c : category)
  (es : list expense) : list nudge :=
  let amounts := sortDescending (map amount es) in
  if Nat.leb 3 (List.length amounts) then
    let median := spikeMedian amounts in
    let largest := spikeLargest amounts in
    if Qltb (median * 5) largest then
      [{| id_prefix := "unusual_spike";
          id_ts := now;
          type := NUDGE_TYPES.CATEGORY_PATTERN;
          priority := NUDGE_PRIORITY.MEDIUM;
          actionable := true;
          metadata := [("categoryId", MStr categoryId);
                       ("categoryName", MStr (cat_name c));
                       ("largestExpense", MNum (toFixed 2 largest));
                       ("medianExpense", MNum (toFixed 2 median))] |}]
    else []
  else [].

Definition categoryPatternNudges (now : Z) (categories : list category)
  (entry : string * list expense) : list nudge :=
  let '(categoryId, categoryExpenseList) := entry in
  match find (fun c => String.eqb (cat_id c) categoryId) categories with
  | None => []
  | Some c =>
      (smallPurchaseNudge now categoryId c categoryExpenseList
       ++ spikeNudge now categoryId c categoryExpenseList)%list
  end.

Definition detectCategoryPatterns (now : Z) (expenses : list expense)
  (categories : list category) : list nudge :=
  flat_map (categoryPatternNudges now categories) (groupByCategory expenses).

(* ------------------------------------------------------------------ *)
(** ** [detectSavingsMilestones] *)

Definition detectSavingsMilestones : list nudge := [].

(* ------------------------------------------------------------------ *)
(** ** [generateAllNudges]

    The evaluators run in order inside one [try]; the [catch] logs the
    error and the function returns the nudges pushed so far. *)

Fixpoint collectNudges (nudges : list nudge) (steps : list (result (list nudge)))
  : list nudge :=
  match steps with
  | [] => nudges
  | Ok ns :: rest => collectNudges (nudges ++ ns)%list rest
  | Err _ :: _ => nudges
  end.

Definition optionToList {A} (o : option A) : list A :=
  match o with Some x => [x] | None => [] end.

Definition evaluatorSteps (b : backend) (expenses : list expense)
  (categories : list category) (user : option streak)
  : list (result (list nudge)) :=
  [ Ok (optionToList (detectWeekendSpending (dateNow b) expenses));
    detectBudgetOverspend b categories;
    (t <- analyzeSpendingTrendsForNudge b ;; Ok (optionToList t));
    generateMotivationalNudges (dateNow b) user;
    Ok (detectCategoryPatterns (dateNow b) expenses categories);
    Ok detectSavingsMilestones ].

Definition generateAllNudges (b : backend) (expenses : list expense)
  (categories : list category) (user : option streak) : list nudge :=
  collectNudges [] (evaluatorSteps b expenses categories user).

(* ------------------------------------------------------------------ *)
(** ** Insight aggregator *)

Inductive trend := up | down | stable.

Record spendingPatterns := mkSpendingPatterns {
  isIncreasing : bool;
  sp_trend : trend;
  sp_changePercentage : Q;
  currentPeriod : Q;
  previousPeriod : Q
}.

(** The part of [analyzeSpendingTrends] after both totals are read. *)
Definition trendLabel (currentPeriodTotal previousPeriodTotal : Q)
  : trend * Q :=
  if Qltb 0 previousPeriodTotal then
    let changePercentage := changePercentageOf currentPeriodTotal previousPeriodTotal in
    if Qltb 5 changePercentage then (up, changePercentage)
    else if Qltb changePercentage (-5) then (down, changePercentage)
    else (stable, changePercentage)
  else (stable, 0%Q).

Definition trend_eqb (t u : trend) : bool :=
  match t, u with
  | up, up | down, down | stable, stable => true
  | _, _ => false
  end.

Definition spendingPatternsOf (currentPeriodTotal previousPeriodTotal : Q)
  : spendingPatterns :=
  let '(t, changePercentage) := trendLabel currentPeriodTotal previousPeriodTotal in
  {| isIncreasing := trend_eqb t up;
     sp_trend := t;
     sp_changePercentage := toFixed 1 changePercentage;
     currentPeriod := toFixed 2 currentPeriodTotal;
     previousPeriod := toFixed 2 previousPeriodTotal |}.

Definition analyzeSpendingTrends (b : backend) : result spendingPatterns :=
  currentPeriodTotal <- getTotalSpending b true ;;
  previousPeriodTotal <- getTotalSpending b false ;;
  Ok (spendingPatternsOf currentPeriodTotal previousPeriodTotal).

Record categoryAlert := mkCategoryAlert {
  alert_categoryId : string;
  alert_spent : Q;
  alert_percentage : Q;
  overBudget : bool
}.

Fixpoint analyzeCategorySpending (b : backend) (categories : list category)
  : result (list categoryAlert) :=
  match categories with
  | [] => Ok []
  | c :: cs =>
      if budgetSkipped c then analyzeCategorySpending b cs
      else
        spent <- getCategorySpending b (cat_id c) ;;
        let percentage := budgetPercentage c spent in
        rest <- analyzeCategorySpending b cs ;;
        if Qleb 100 percentage then
          Ok ({| alert_categoryId := cat_id c; alert_spent := toFixed 2 spent;
                 alert_percentage := toFixed 1 percentage; overBudget := true |} :: rest)
        else if Qleb 80 percentage then
          Ok ({| alert_categoryId := cat_id c; alert_spent := toFixed 2 spent;
                 alert_percentage := toFixed 1 percentage; overBudget := false |} :: rest)
        else Ok rest
  end.

(* ------------------------------------------------------------------ *)
(** ** [generateInsights] *)

Record insights := mkInsights {
  nudges : list nudge;
  patterns : spendingPatterns;
  categoryAlerts : list categoryAlert;
  streakInfo : streak
}.

Definition generateInsights (b : backend) (userId : string) : result insights :=
  expenses <- getUserExpenses b ;;
  categories <- getUserCategories b userId ;;
  user <- getUserInfo b ;;
  let all_nudges := generateAllNudges b expenses categories user in
  sp <- analyzeSpendingTrends b ;;
  alerts <- analyzeCategorySpending b categories ;;
  s <- userStreak user ;;
  Ok {| nudges := selectNudges all_nudges;
        patterns := sp;
        categoryAlerts := alerts;
        streakInfo := s |}.

(* ------------------------------------------------------------------ *)
(** ** Vocabulary for the statements *)

(** The evaluator outputs [generateAllNudges] keeps: those of the steps
    before the first one that throws. *)
Fixpoint okPrefix (steps : list (result (list nudge))) : list (list nudge) :=
  match steps with
  | [] => []
  | Ok ns :: rest => ns :: okPrefix rest
  | Err _ :: _ => []
  end.


Fixpoint metaLookup (key : string) (md : list (string * mval)) : option mval :=
  match md with
  | [] => None
  | (k, v) :: rest => if String.eqb k key then Some v else metaLookup key rest
  end.

Definition nudgeCategoryId (n : nudge) : string :=
  match metaLookup "categoryId" (metadata n) with
  | Some (MStr s) => s
  | _ => ""
  end.

(** The expense list grouped under key [k] (empty when [k] is absent). *)
Fixpoint groupLookup (k : string) (g : list (string * list expense)) : list expense :=
  match g with
  | [] => []
  | (k', es) :: g' => if String.eqb k' k then es else groupLookup k g'
  end.

(** A spike nudge about category [k]. *)
Definition isSpikeFor (k : string) (n : nudge) : bool :=
  String.eqb (id_prefix n) "unusual_spike" && String.eqb (nudgeCategoryId n) k.

(** A nudge whose [type] is not [savings_milestone]. *)
Definition notSavings (n : nudge) : Prop := type n <> NUDGE_TYPES.SAVINGS_MILESTONE.

(* ------------------------------------------------------------------ *)
(** ** Sample stores *)

Definition sampleCategory (id : string) (budget : option Q) : category :=
  {| cat_id := id; cat_userId := "u1"; cat_name := id; cat_isActive := true;
     monthlyBudget := budget |}.

(** Two budgeted categories, each 90% spent this month; every read
    succeeds and the clock reads the same millisecond throughout. *)
Definition twoWarningsBackend : backend :=
  {| expenseQuery := Ok [];
     categoryCollection := Ok [sampleCategory "A" (Some 100%Q);
                               sampleCategory "B" (Some 100%Q)];
     userQuery := Ok (Some {| current := 3; longest := 5 |});
     getCategorySpendingThisMonth := fun _ => Ok 90%Q;
     getTotalSpending := fun _ => Ok 0%Q;
     getCategorySpending := fun _ => Ok 0%Q;
     dateNow := 1700000000000;
     remainingDaysInMonth := 10 |}.

(** A Saturday expense of 300 and a Monday expense of 100 (weekend ratio
    3), one budgeted category whose this-month spending read fails, a
    7-day streak that is also the longest, and totals 1200 against 1000. *)
Definition failingBudgetBackend : backend :=
  {| expenseQuery := Ok [{| amount := 300; day_of_week := 6; categoryId := "A" |};
                         {| amount := 100; day_of_week := 1; categoryId := "A" |}];
     categoryCollection := Ok [sampleCategory "A" (Some 5000%Q)];
     userQuery := Ok (Some {| current := 7; longest := 7 |});
     getCategorySpendingThisMonth := fun _ => Err (DbError "connection reset");
     getTotalSpending := fun isCurrent => if isCurrent then Ok 1200%Q else Ok 1000%Q;
     getCategorySpending := fun _ => Ok 400%Q;
     dateNow := 1700000000000;
     remainingDaysInMonth := 10 |}.

(** Four expenses in category A, in input order 100, 1000, 150, 300: the
    descending list is 1000, 300, 150, 100, whose element at index 2 is
    150 (the two middle values average 225). *)
Definition spikeSample : list expense :=
  [{| amount := 100; day_of_week := 1; categoryId := "A" |};
   {| amount := 1000; day_of_week := 2; categoryId := "A" |};
   {| amount := 150; day_of_week := 3; categoryId := "A" |};
   {| amount := 300; day_of_week := 4; categoryId := "A" |}].

(** Category A has a zero budget; everything else as in a quiet store. *)
Definition zeroBudgetBackend : backend :=
  {| expenseQuery := Ok spikeSample;
     categoryCollection := Ok [sampleCategory "A" (Some 0%Q)];
     userQuery := Ok (Some {| current := 0; longest := 0 |});
     getCategorySpendingThisMonth := fun _ => Ok 0%Q;
     getTotalSpending := fun _ => Ok 0%Q;
     getCategorySpending := fun _ => Ok 0%Q;
     dateNow := 1700000000000;
     remainingDaysInMonth := 10 |}.

(* ------------------------------------------------------------------ *)
(** ** Analysis windows: [moment] on the server clock

    Instants are milliseconds since the epoch and the server runs in UTC,
    so a day is [DAY] milliseconds, [startOf('day')] rounds down to a
    multiple of [DAY], [subtract(n, 'days')] subtracts [n * DAY] and
    [diff(..., 'days')] truncates the difference in days towards zero. *)

Definition DAY : Z := 86400000.

Definition startOfDay (t : Z) : Z := t - t mod DAY.

(** [endOf('day')]: the last millisecond of the day. *)
Definition endOfDay (t : Z) : Z := startOfDay t + DAY - 1.

(** [moment(a).diff(moment(b), 'days')]. *)
Definition diffDays (a b : Z) : Z := Z.quot (a - b) DAY.

(** The window of [generateInsights] when no dates are given:
    [moment().subtract(30, 'days').startOf('day')] to
    [moment().endOf('day')]. *)
Definition defaultWindow (now : Z) : Z * Z :=
  (startOfDay (now - 30 * DAY), endOfDay now).

(** [previousPeriodStart] and [previousPeriodEnd], computed alike by
    [analyzeSpendingTrendsForNudge] and [analyzeSpendingTrends]. *)
Definition previousWindow (startDate endDate : Z) : Z * Z :=
  (startDate - diffDays endDate startDate * DAY, startDate - DAY).

(** An expense document as the aggregation pipelines see it. *)
Record expenseDoc := mkExpenseDoc {
  doc_userId : string;
  doc_isActive : bool;
  doc_date : Z;
  doc_amount : Q
}.

(** The [$match] stage of [getTotalSpending]. *)
Definition matchesWindow (userId : string) (startDate endDate : Z) (d : expenseDoc) : bool :=
  String.eqb (doc_userId d) userId && doc_isActive d
  && Z.leb startDate (doc_date d) && Z.leb (doc_date d) endDate.

(** [getTotalSpending]: with no matching document the pipeline yields no
    group and [result[0]?.total || 0] is 0. *)
Definition getTotalSpendingIn (store : list expenseDoc) (userId : string)
  (startDate endDate : Z) : Q :=
  match filter (matchesWindow userId startDate endDate) store with
  | [] => 0%Q
  | ds => sumQ (map doc_amount ds)
  end.

(** The two reads of a trend analysis over [startDate, endDate] against
    an expense collection: the current window ([true]) and the previous
    one ([false]). *)
Definition windowTotals (store : list expenseDoc) (userId : string) (startDate endDate : Z)
  (isCurrent : bool) : result Q :=
  if isCurrent then Ok (getTotalSpendingIn store userId startDate endDate)
  else let '(ps, pe) := previousWindow startDate endDate in
       Ok (getTotalSpendingIn store userId ps pe).

(* ------------------------------------------------------------------ *)
(** ** [getBudgetHealthScore] of [controllers/insightController.js] *)

Inductive healthClass := onTrack | warningClass | overClass.

Definition healthClass_eqb (h h' : healthClass) : bool :=
  match h, h' with
  | onTrack, onTrack | warningClass, warningClass | overClass, overClass => true
  | _, _ => false
  end.

(** The classification of one category by its percentage spent. *)
Definition classifyHealth (percentage : Q) : healthClass :=
  if Qleb percentage 80 then onTrack
  else if Qleb percentage 100 then warningClass
  else overClass.

Definition categoryScore (h : healthClass) : Z :=
  match h with onTrack => 100 | warningClass => 60 | overClass => 20 end.

(** [Math.round]: the nearest integer, halves rounded up. *)
Definition mathRound (x : Q) : Z := Qfloor (x + (1 # 2))%Q.

Definition gradeOf (averageScore : Z) : string :=
  if Z.leb 90 averageScore then "A+"
  else if Z.leb 80 averageScore then "A"
  else if Z.leb 70 averageScore then "B"
  else if Z.leb 60 averageScore then "C"
  else "D".

(** The [data] of the response; the message and the period are left out. *)
Record healthReport := mkHealthReport {
  score : Z;
  grade : string;
  totalCategories : nat;
  onTrackCategories : nat;
  warningCategories : nat;
  overBudgetCategories : nat
}.

(** [Category.find({ userId, isActive: true, monthlyBudget: { $gt: 0 } })]. *)
Definition budgetedCategories (collection : list category) (userId : string) : list category :=
  filter (fun c => String.eqb (cat_userId c) userId && cat_isActive c && negb (budgetSkipped c))
         collection.

(** The loop over the categories: one aggregation of this month's
    spending per category, awaited in order. *)
Fixpoint classifyCategories (monthSpending : string -> result Q) (categories : list category)
  : result (list healthClass) :=
  match categories with
  | [] => Ok []
  | c :: cs =>
      spentAmount <- monthSpending (cat_id c) ;;
      rest <- classifyCategories monthSpending cs ;;
      Ok (classifyHealth (budgetPercentage c spentAmount) :: rest)
  end.

Definition countClass (h : healthClass) (l : list healthClass) : nat :=
  List.length (filter (healthClass_eqb h) l).

Definition getBudgetHealthScore (collection : result (list category)) (userId : string)
  (monthSpending : string -> result Q) : result healthReport :=
  all <- collection ;;
  let categories := budgetedCategories all userId in
  if Nat.eqb (List.length categories) 0 then
    Ok {| score := 0; grade := "N/A"; totalCategories := 0; onTrackCategories := 0;
          warningCategories := 0; overBudgetCategories := 0 |}
  else
    classes <- classifyCategories monthSpending categories ;;
    let totalScore := fold_left Z.add (map categoryScore classes) 0 in
    let averageScore :=
      mathRound (inject_Z totalScore / inject_Z (Z.of_nat (List.length categories)))%Q in
    Ok {| score := averageScore;
          grade := gradeOf averageScore;
          totalCategories := List.length categories;
          onTrackCategories := countClass onTrack classes;
          warningCategories := countClass warningClass classes;
          overBudgetCategories := countClass overClass classes |}.

(* ------------------------------------------------------------------ *)
(** ** [getFinancialTips] of [controllers/insightController.js] *)

(** [String.prototype.toLowerCase] on ASCII text. *)
Definition lowerAscii (c : ascii) : ascii :=
  if Nat.leb 65 (nat_of_ascii c) && Nat.leb (nat_of_ascii c) 90
  then ascii_of_nat (nat_of_ascii c + 32) else c.

Fixpoint toLowerCase (s : string) : string :=
  match s with
  | EmptyString => EmptyString
  | String c s' => String (lowerAscii c) (toLowerCase s')
  end.

(** [s.includes(search)]. *)
Fixpoint includes (s search : string) : bool :=
  String.prefix search s ||
  match s with
  | EmptyString => false
  | String _ s' => includes s' search
  end.

(** [nudge.metadata.categoryName], when it is a string (the evaluators
    only ever store strings there). *)
Definition categoryNameOf (n : nudge) : option string :=
  match metaLookup "categoryName" (metadata n) with
  | Some (MStr s) => Some s
  | _ => None
  end.

(** [nudge.metadata.categoryName?.toLowerCase().includes(category.toLowerCase())];
    an absent name gives [undefined], which is falsy. *)
Definition matchesCategory (category : string) (n : nudge) : bool :=
  match categoryNameOf n with
  | Some s => includes (toLowerCase s) (toLowerCase category)
  | None => false
  end.

(** A formatted tip; the title and description are display strings. *)
Record tip := mkTip {
  tip_id_prefix : string;
  tip_id_ts : Z;
  tip_type : string;
  tip_priority : string;
  tip_category : string;
  tip_actionable : bool;
  tip_metadata : list (string * mval)
}.

Definition formatTip (n : nudge) : tip :=
  {| tip_id_prefix := id_prefix n;
     tip_id_ts := id_ts n;
     tip_type := type n;
     tip_priority := priority n;
     tip_category := match categoryNameOf n with
                     | Some s => if String.eqb s "" then "General" else s
                     | None => "General"
                     end;
     tip_actionable := true;
     tip_metadata := metadata n |}.

Record tipsResponse := mkTipsResponse {
  tips : list tip;
  totalTips : nat;
  highPriorityCount : nat
}.

(** The part after the insights are generated; [category] is the query
    parameter ([None] when absent). *)
Definition financialTips (category : option string) (ns : list nudge) : tipsResponse :=
  let actionableTips := filter actionable ns in
  let selected :=
    match category with
    | Some q => if String.eqb q "" then actionableTips
                else filter (matchesCategory q) actionableTips
    | None => actionableTips
    end in
  let formattedTips := map formatTip selected in
  {| tips := formattedTips;
     totalTips := List.length formattedTips;
     highPriorityCount :=
       List.length (filter (fun t => String.eqb (tip_priority t) "high") formattedTips) |}.

Definition getFinancialTips (b : backend) (userId : string) (category : option string)
  : result tipsResponse :=
  r <- generateInsights b userId ;;
  Ok (financialTips category (nudges r)).

(* ------------------------------------------------------------------ *)
(** ** [ExportService], the second class of [services/aiService.js] *)

Module EXPORT_FORMATS.
Definition CSV := "csv".
Definition PDF := "pdf".
Definition JSON := "json".
Definition all := [CSV; PDF; JSON].
End EXPORT_FORMATS.

(** [Object.values(EXPORT_FORMATS).includes(format)]. *)
Definition supportedFormat (format : string) : bool :=
  existsb (String.eqb format) EXPORT_FORMATS.all.

(** A value, or a thrown [Error] with its message. *)
Inductive outcome (A : Type) :=
| Done (a : A)
| Thrown (msg : string).
Arguments Done {A} a.
Arguments Thrown {A} msg.

(** The populated [category] virtual of an expense. *)
Record populatedCategory := mkPopulatedCategory {
  pc_name : string;
  pc_color : string
}.

(** An expense document as [getExpensesForExport] reads it; the dates are
    their [toISOString()] forms. *)
Record exportDoc := mkExportDoc {
  ed_dateISO : string;
  ed_amount : Q;
  ed_currency : string;
  ed_category : option populatedCategory;
  ed_note : option string;
  ed_paymentMethod : string;
  ed_tags : option (list string);
  ed_receiptUrl : option string;
  ed_createdAtISO : string
}.

Record exportRow := mkExportRow {
  row_date : string;
  row_amount : Q;
  row_currency : string;
  row_category : string;
  row_categoryColor : string;
  row_note : string;
  row_paymentMethod : string;
  row_tags : string;
  row_receiptUrl : string;
  row_createdAt : string
}.

(** [s.split('T')[0]]. *)
Fixpoint beforeT (s : string) : string :=
  match s with
  | EmptyString => EmptyString
  | String c s' => if Ascii.eqb c "T"%char then EmptyString else String c (beforeT s')
  end.

(** [arr.join(sep)]. *)
Fixpoint join (sep : string) (l : list string) : string :=
  match l with
  | [] => ""
  | [x] => x
  | x :: t => x ++ sep ++ join sep t
  end.

(** [x || ''] for an optional string. *)
Definition orEmpty (o : option string) : string :=
  match o with Some s => s | None => "" end.

(** The [map] of [getExpensesForExport]. *)
Definition exportRowOf (e : exportDoc) : exportRow :=
  {| row_date := beforeT (ed_dateISO e);
     row_amount := ed_amount e;
     row_currency := ed_currency e;
     row_category := match ed_category e with Some c => pc_name c | None => "Unknown" end;
     row_categoryColor := match ed_category e with Some c => pc_color c | None => "#999999" end;
     row_note := orEmpty (ed_note e);
     row_paymentMethod := ed_paymentMethod e;
     row_tags := match ed_tags e with Some ts => join "; " ts | None => "" end;
     row_receiptUrl := orEmpty (ed_receiptUrl e);
     row_createdAt := beforeT (ed_createdAtISO e) |}.

(** A plain object used as a map, as its own enumerable properties in
    creation order. *)
Record bucket := mkBucket {
  bk_amount : Q;
  bk_count : nat
}.

(** The members of [Object.prototype]: [obj[k]] reads them on a fresh
    object. *)
Definition objectPrototypeMembers : list string :=
  ["constructor"; "__defineGetter__"; "__defineSetter__"; "hasOwnProperty";
   "__lookupGetter__"; "__lookupSetter__"; "isPrototypeOf"; "propertyIsEnumerable";
   "toString"; "valueOf"; "__proto__"; "toLocaleString"].

Fixpoint bucketAdd (k : string) (x : Q) (o : list (string * bucket))
  : list (string * bucket) :=
  match o with
  | [] => [(k, {| bk_amount := (0 + x)%Q; bk_count := 0 + 1 |})]
  | (k', d) :: o' =>
      if String.eqb k k' then (k', {| bk_amount := (bk_amount d + x)%Q; bk_count := bk_count d + 1 |}) :: o'
      else (k', d) :: bucketAdd k x o'
  end.

(** The body of the [forEach]:
    [if (!obj[k]) obj[k] = { amount: 0, count: 0 }; obj[k].amount += x;
    obj[k].count += 1].  For a key naming a member of [Object.prototype],
    [obj[k]] is the inherited member, which is truthy: no own property is
    created and the two updates land on that member. *)
Definition tally (k : string) (x : Q) (o : list (string * bucket)) : list (string * bucket) :=
  if existsb (String.eqb k) objectPrototypeMembers then o else bucketAdd k x o.

Definition isDigit (c : ascii) : bool :=
  Nat.leb 48 (nat_of_ascii c) && Nat.leb (nat_of_ascii c) 57.

Fixpoint digitsValue (s : string) (acc : Z) : option Z :=
  match s with
  | EmptyString => Some acc
  | String c s' =>
      if isDigit c then digitsValue s' (acc * 10 + Z.of_nat (nat_of_ascii c - 48))
      else None
  end.

(** The value of a key that is an array index: the canonical decimal
    form of an integer from 0 to 2^32 - 2. *)
Definition arrayIndexOf (k : string) : option Z :=
  match k with
  | EmptyString => None
  | String c rest =>
      if Ascii.eqb c "0"%char && negb (String.eqb rest "") then None
      else match digitsValue k 0 with
           | Some v => if Z.leb v 4294967294 then Some v else None
           | None => None
           end
  end.

Definition isArrayIndex (k : string) : bool :=
  match arrayIndexOf k with Some _ => true | None => false end.

Definition indexValue (k : string) : Z :=
  match arrayIndexOf k with Some v => v | None => 0 end.

(** [Object.entries]: the array-index keys in ascending numeric order,
    then the other keys in creation order. *)
Definition objectEntries {A} (o : list (string * A)) : list (string * A) :=
  (sort_by (fun a b => Z.leb (indexValue (fst a)) (indexValue (fst b)))
           (filter (fun kv => isArrayIndex (fst kv)) o)
   ++ filter (fun kv => negb (isArrayIndex (fst kv))) o)%list.

Record breakdownEntry := mkBreakdownEntry {
  be_key : string;
  be_amount : Q;
  be_count : nat;
  be_percentage : Q
}.

Record exportSummary := mkExportSummary {
  totalAmount : Q;
  averageAmount : Q;
  totalExpenses : nat;
  categoryBreakdown : list breakdownEntry;
  paymentMethodBreakdown : list breakdownEntry
}.

Definition breakdown (total : Q) (o : list (string * bucket)) : list breakdownEntry :=
  map (fun kv => {| be_key := fst kv;
                    be_amount := toFixed 2 (bk_amount (snd kv));
                    be_count := bk_count (snd kv);
                    be_percentage := toFixed 1 (bk_amount (snd kv) / total * 100)%Q |})
      (objectEntries o).

(** [expense.category || 'Unknown']. *)
Definition categoryKey (e : exportRow) : string :=
  if String.eqb (row_category e) "" then "Unknown" else row_category e.

Definition calculateExportSummary (expenses : list exportRow) : exportSummary :=
  let total := fold_left (fun s e => (s + row_amount e)%Q) expenses 0%Q in
  let n := List.length expenses in
  let average := if Nat.ltb 0 n then (total / inject_Z (Z.of_nat n))%Q else 0%Q in
  let categoryTotals := fold_left (fun o e => tally (categoryKey e) (row_amount e) o) expenses [] in
  let paymentTotals := fold_left (fun o e => tally (row_paymentMethod e) (row_amount e) o) expenses [] in
  {| totalAmount := toFixed 2 total;
     averageAmount := toFixed 2 average;
     totalExpenses := n;
     categoryBreakdown := breakdown total categoryTotals;
     paymentMethodBreakdown := breakdown total paymentTotals |}.

(** The object built by one of the two [forEach] loops of
    [calculateExportSummary], keyed by [key]. *)
Definition tallyBy (key : exportRow -> string) (rows : list exportRow) : list (string * bucket) :=
  fold_left (fun o e => tally (key e) (row_amount e) o) rows [].

(** The returned export descriptor; [ex_data] is the summary part of the
    JSON export's [data]. *)
Record exportResult := mkExportResult {
  filename : string;
  ex_format : string;
  size : Z;
  recordCount : nat;
  ex_data : option exportSummary
}.

(** [`expenses_${moment(startDate).format('YYYY-MM-DD')}_to_${moment(endDate).format('YYYY-MM-DD')}.${ext}`],
    [startStr] and [endStr] being the two formatted dates. *)
Definition exportFilename (startStr endStr ext : string) : string :=
  "expenses_" ++ startStr ++ "_to_" ++ endStr ++ "." ++ ext.

(** The message of the [ReferenceError] thrown on reading an undeclared
    [moment]. *)
Definition momentNotDefined : string := "moment is not defined".

(** [exportToCSV], [exportToJSON] and [exportToPDF]: [writeFile name]
    writes the file under that name (the CSV writer, [fs.writeFileSync] or
    the PDF renderer) and gives its size from [fs.statSync], or throws.
    [bindsMoment] tells whether [moment] is in scope where the file name
    is built: [exportToPDF] binds it with its own
    [const moment = require('moment')], while the module itself never
    requires it, so in [exportToCSV] and [exportToJSON] the first use of
    [moment] throws before anything is written. *)
Definition exportTo (ext format : string) (bindsMoment withData : bool)
  (writeFile : string -> outcome Z)
  (startStr endStr : string) (expenses : list exportRow) : outcome exportResult :=
  if negb bindsMoment then Thrown momentNotDefined else
  let fname := exportFilename startStr endStr ext in
  match writeFile fname with
  | Thrown m => Thrown m
  | Done sz =>
      Done {| filename := fname;
              ex_format := format;
              size := sz;
              recordCount := List.length expenses;
              ex_data := if withData then Some (calculateExportSummary expenses) else None |}
  end.

(** [exportExpenses]; [query] is the awaited [Expense.find] of
    [getExpensesForExport]. *)
Definition exportExpenses (query : outcome (list exportDoc)) (startStr endStr format : string)
  (writeFile : string -> outcome Z) : outcome exportResult :=
  if negb (supportedFormat format) then Thrown ("Unsupported export format: " ++ format)
  else
    match query with
    | Thrown m => Thrown m
    | Done docs =>
        let expenses := map exportRowOf docs in
        if Nat.eqb (List.length expenses) 0 then
          Thrown "No expenses found in the specified date range"
        else if String.eqb format EXPORT_FORMATS.CSV then
          exportTo "csv" EXPORT_FORMATS.CSV false false writeFile startStr endStr expenses
        else if String.eqb format EXPORT_FORMATS.JSON then
          exportTo "json" EXPORT_FORMATS.JSON false true writeFile startStr endStr expenses
        else if String.eqb format EXPORT_FORMATS.PDF then
          exportTo "pdf" EXPORT_FORMATS.PDF true false writeFile startStr endStr expenses
        else Thrown ("Export format " ++ format ++ " not implemented")
    end.

(** [path.extname] of Node (POSIX): the loop state. *)
Record extState := mkExtState {
  startDot : Z;
  startPart : Z;
  endPos : Z;
  matchedSlash : bool;
  preDotState : Z
}.

Definition extInit : extState :=
  {| startDot := -1; startPart := 0; endPos := -1; matchedSlash := true; preDotState := 0 |}.

Definition setEnd (i : Z) (st : extState) : extState :=
  {| startDot := startDot st; startPart := startPart st; endPos := i;
     matchedSlash := false; preDotState := preDotState st |}.

Definition setStartDot (i : Z) (st : extState) : extState :=
  {| startDot := i; startPart := startPart st; endPos := endPos st;
     matchedSlash := matchedSlash st; preDotState := preDotState st |}.

Definition setPreDot (v : Z) (st : extState) : extState :=
  {| startDot := startDot st; startPart := startPart st; endPos := endPos st;
     matchedSlash := matchedSlash st; preDotState := v |}.

Definition setStartPart (i : Z) (st : extState) : extState :=
  {| startDot := startDot st; startPart := i; endPos := endPos st;
     matchedSlash := matchedSlash st; preDotState := preDotState st |}.

(** One iteration on a character other than ['/'] at position [i]. *)
Definition extStep (c : ascii) (i : Z) (st : extState) : extState :=
  let st1 := if Z.eqb (endPos st) (-1) then setEnd (i + 1) st else st in
  if Ascii.eqb c "."%char then
    if Z.eqb (startDot st1) (-1) then setStartDot i st1
    else if negb (Z.eqb (preDotState st1) 1) then setPreDot 1 st1
    else st1
  else if negb (Z.eqb (startDot st1) (-1)) then setPreDot (-1) st1
  else st1.

(** The loop [for (i = path.length - 1; i >= 0; --i)]: [cs] holds the
    characters at positions [i], [i - 1], ..., 0. *)
Fixpoint extScan (cs : list ascii) (i : Z) (st : extState) : extState :=
  match cs with
  | [] => st
  | c :: cs' =>
      if Ascii.eqb c "/"%char then
        if matchedSlash st then extScan cs' (i - 1) st
        else setStartPart (i + 1) st
      else extScan cs' (i - 1) (extStep c i st)
  end.

Definition extname (path : string) : string :=
  let cs := list_ascii_of_string path in
  let st := extScan (rev cs) (Z.of_nat (List.length cs) - 1) extInit in
  if Z.eqb (startDot st) (-1) || Z.eqb (endPos st) (-1) || Z.eqb (preDotState st) 0
     || (Z.eqb (preDotState st) 1 && Z.eqb (startDot st) (endPos st - 1)
         && Z.eqb (startDot st) (startPart st + 1))
  then ""
  else string_of_list_ascii
         (firstn (Z.to_nat (endPos st - startDot st)) (skipn (Z.to_nat (startDot st)) cs)).

(** [getContentType]: [contentTypes[ext] || 'application/octet-stream']. *)
Definition getContentType (fname : string) : string :=
  let ext := toLowerCase (extname fname) in
  if String.eqb ext ".csv" then "text/csv"
  else if String.eqb ext ".json" then "application/json"
  else if String.eqb ext ".pdf" then "application/pdf"
  else "application/octet-stream".

(** The formats and MIME types listed by [getExportFormats] of
    [controllers/reportController.js]. *)
Definition exportFormatList : list (string * string) :=
  [(EXPORT_FORMATS.CSV, "text/csv");
   (EXPORT_FORMATS.JSON, "application/json");
   (EXPORT_FORMATS.PDF, "application/pdf")].

Definition advertisedMimeType (format : string) : option string :=
  match find (fun fm => String.eqb (fst fm) format) exportFormatList with
  | Some fm => Some (snd fm)
  | None => None
  end.

(** The checks [exportData] of [controllers/reportController.js] makes
    before it calls [exportExpenses]: [start] and [end_] are the parsed
    query dates ([None] when the parameter is absent or empty), [format]
    the query string ([""] when absent).  On success it passes on
    [startOf('day')] of the start and [endOf('day')] of the end. *)
Definition exportDataRange (start end_ : option Z) (format : string) : outcome (Z * Z) :=
  match start, end_ with
  | Some s, Some e =>
      if String.eqb format "" then Thrown "Start date, end date, and format are required"
      else if negb (supportedFormat format) then
        Thrown "Invalid format. Supported formats: csv, pdf, json"
      else
        let startDate := startOfDay s in
        let endDate := endOfDay e in
        if Z.leb endDate startDate then Thrown "Start date must be before end date"
        else if Z.ltb 365 (diffDays endDate startDate) then
          Thrown "Date range cannot exceed 365 days"
        else Done (startDate, endDate)
  | _, _ => Thrown "Start date, end date, and format are required"
  end.

(** An entry of the uploads directory as [cleanupOldExports] meets it:
    [statResult] is the [mtime] [fs.statSync] reports ([None] when it
    throws), [seenAt] the [Date.now()] read when the loop reaches the file
    and [unlinkOk] whether [fs.unlinkSync] succeeds. *)
Record dirEntry := mkDirEntry {
  file : string;
  statResult : option Z;
  seenAt : Z;
  unlinkOk : bool
}.

(** [ageInHours > maxAgeHours]. *)
Definition olderThan (maxAgeHours : Q) (mtime now : Z) : bool :=
  Qltb maxAgeHours (inject_Z (now - mtime) / inject_Z (1000 * 60 * 60))%Q.

(** The [for] loop inside the [try]: the names of the files it deletes; a
    throwing [statSync] or [unlinkSync] ends the loop (the [catch] only
    logs). *)
Fixpoint cleanupLoop (maxAgeHours : Q) (files : list dirEntry) : list string :=
  match files with
  | [] => []
  | f :: rest =>
      match statResult f with
      | None => []
      | Some mtime =>
          if olderThan maxAgeHours mtime (seenAt f) then
            if unlinkOk f then file f :: cleanupLoop maxAgeHours rest else []
          else cleanupLoop maxAgeHours rest
      end
  end.

(** [cleanupOldExports(maxAgeHours = 24)]: [listing] is [fs.readdirSync]
    ([None] when it throws). *)
Definition cleanupOldExports (listing : option (list dirEntry)) (maxAgeHours : option Q)
  : list string :=
  let maxAge := match maxAgeHours with Some h => h | None => 24%Q end in
  match listing with
  | None => []
  | Some files => cleanupLoop maxAge files
  end.

(* ------------------------------------------------------------------ *)
(** ** Further vocabulary for the statements *)

(** A small-purchases nudge about category [k]. *)
Definition isSmallFor (k : string) (n : nudge) : bool :=
  String.eqb (id_prefix n) "small_purchases" && String.eqb (nudgeCategoryId n) k.

Fixpoint takeWhile {A} (p : A -> bool) (l : list A) : list A :=
  match l with
  | [] => []
  | x :: t => if p x then x :: takeWhile p t else []
  end.

(** An entry on which the loop of [cleanupOldExports] throws: [statSync]
    fails, or the file is old enough and [unlinkSync] fails. *)
Definition cleanupThrowsOn (maxAgeHours : Q) (f : dirEntry) : bool :=
  match statResult f with
  | None => true
  | Some mtime => olderThan maxAgeHours mtime (seenAt f) && negb (unlinkOk f)
  end.

(** An entry older than [maxAgeHours] by its [mtime]. *)
Definition staleEntry (maxAgeHours : Q) (f : dirEntry) : bool :=
  match statResult f with
  | Some mtime => olderThan maxAgeHours mtime (seenAt f)
  | None => false
  end.

(** A string with no ['/'] in it. *)
Definition noSlash (s : string) : Prop := ~ In "/"%char (list_ascii_of_string s).

(* ------------------------------------------------------------------ *)
(** ** More sample stores *)

(** Categories A (budget 100, 90 spent), B (budget 100, 120 spent) and C
    (no budget); both spending reads agree. *)
Definition alertBackend : backend :=
  {| expenseQuery := Ok [];
     categoryCollection := Ok [sampleCategory "A" (Some 100%Q);
                               sampleCategory "B" (Some 100%Q);
                               sampleCategory "C" None];
     userQuery := Ok (Some {| current := 1; longest := 3 |});
     getCategorySpendingThisMonth := fun k => if String.eqb k "A" then Ok 90%Q else Ok 120%Q;
     getTotalSpending := fun _ => Ok 0%Q;
     getCategorySpending := fun k => if String.eqb k "A" then Ok 90%Q else Ok 120%Q;
     dateNow := 1700000000000;
     remainingDaysInMonth := 10 |}.

(** Expenses of user u1: 500 on the previous day, 100 and 50 in the
    morning of day 20. *)
Definition sampleStore : list expenseDoc :=
  [{| doc_userId := "u1"; doc_isActive := true; doc_date := 19 * DAY + 3600000; doc_amount := 500 |};
   {| doc_userId := "u1"; doc_isActive := true; doc_date := 20 * DAY + 3600000; doc_amount := 100 |};
   {| doc_userId := "u1"; doc_isActive := true; doc_date := 20 * DAY + 7200000; doc_amount := 50 |}].

(** The trend reads of a request whose start and end are both midnight
    of day 20. *)
Definition sameDayBackend : backend :=
  {| expenseQuery := Ok [];
     categoryCollection := Ok [];
     userQuery := Ok (Some {| current := 0; longest := 0 |});
     getCategorySpendingThisMonth := fun _ => Ok 0%Q;
     getTotalSpending := windowTotals sampleStore "u1" (20 * DAY) (20 * DAY);
     getCategorySpending := fun _ => Ok 0%Q;
     dateNow := 1700000000000;
     remainingDaysInMonth := 10 |}.

Definition healthSpending (k : string) : result Q :=
  if String.eqb k "A" then Ok 80%Q else if String.eqb k "B" then Ok 100%Q else Ok 150%Q.

(** One row of an export. *)
Definition sampleDoc (category : option string) (amount : Q) : exportDoc :=
  {| ed_dateISO := "2024-01-15T10:00:00.000Z"; ed_amount := amount; ed_currency := "INR";
     ed_category := match category with
                    | Some n => Some {| pc_name := n; pc_color := "#FF6B6B" |}
                    | None => None
                    end;
     ed_note := None; ed_paymentMethod := "upi"; ed_tags := Some ["lunch"];
     ed_receiptUrl := None; ed_createdAtISO := "2024-01-15T10:00:00.000Z" |}.

Definition sampleWrite (name : string) : outcome Z := Done 2048.

(* ================================================================== *)
(** * Properties *)

(** ** Stable insertion sort *)

Section StableSortFacts.
Context {A : Type} (le : A -> A -> bool).
Hypothesis le_total : forall a b, le a b = false -> le b a = true.

Lemma insert_by_perm (x : A) (l : list A) : Permutation (insert_by le x l) (x :: l).
Proof.
  induction l as [|y t IH]; simpl; [reflexivity|].
  destruct (le x y); [reflexivity|].
  rewrite IH. apply perm_swap.
Qed.

Lemma sort_by_perm (l : list A) : Permutation (sort_by le l) l.
Proof.
  induction l as [|x t IH]; simpl; [reflexivity|].
  rewrite insert_by_perm, IH. reflexivity.
Qed.

Lemma insert_by_sorted (x : A) (l : list A) :
  Sorted (fun a b => le a b = true) l ->
  Sorted (fun a b => le a b = true) (insert_by le x l).
Proof.
  induction l as [|y t IH]; intros Hs; simpl.
  - repeat constructor.
  - destruct (le x y) eqn:Hxy.
    + constructor; [exact Hs | constructor; exact Hxy].
    + apply Sorted_inv in Hs as [Ht Hhd].
      constructor; [now apply IH|].
      destruct t as [|z t']; simpl.
      * constructor. now apply le_total.
      * destruct (le x z); constructor.
        -- now apply le_total.
        -- now inversion Hhd.
Qed.

Lemma sort_by_sorted (l : list A) :
  Sorted (fun a b => le a b = true) (sort_by le l).
Proof.
  induction l as [|x t IH]; simpl; [constructor|].
  now apply insert_by_sorted.
Qed.


End StableSortFacts.


Lemma Sorted_weaken {A} (R S : A -> A -> Prop) (l : list A) :
  (forall a b, R a b -> S a b) -> Sorted R l -> Sorted S l.
Proof.
  intros HRS Hs. induction Hs as [|x t Ht IH Hhd]; constructor; [exact IH|].
  destruct Hhd; constructor. now apply HRS.
Qed.

(** ** The comparator of [prioritizeNudges] *)

Lemma nudge_le_spec (a b : nudge) :
  nudge_le a b = true <->
  priorityOrder (priority a) < priorityOrder (priority b)
  \/ (priorityOrder (priority a) = priorityOrder (priority b) /\ id_ts b <= id_ts a).
Proof.
  unfold nudge_le, compareNudges.
  destruct (Z.eqb_spec (priorityOrder (priority a)) (priorityOrder (priority b)));
    simpl; rewrite Z.leb_le; lia.
Qed.

Lemma nudge_le_total (a b : nudge) : nudge_le a b = false -> nudge_le b a = true.
Proof.
  intros H. apply nudge_le_spec.
  assert (~ (nudge_le a b = true)) as Hn by congruence.
  rewrite nudge_le_spec in Hn. lia.
Qed.


(** ** [generateAllNudges] and [generateInsights] *)

Lemma collectNudges_okPrefix (acc : list nudge) (steps : list (result (list nudge))) :
  collectNudges acc steps = (acc ++ List.concat (okPrefix steps))%list.
Proof.
  revert acc. induction steps as [|[ns|e] rest IH]; intros acc; simpl.
  - now rewrite app_nil_r.
  - rewrite IH. now rewrite app_assoc.
  - now rewrite app_nil_r.
Qed.

Lemma generateAllNudges_okPrefix b expenses categories user :
  generateAllNudges b expenses categories user
  = List.concat (okPrefix (evaluatorSteps b expenses categories user)).
Proof. unfold generateAllNudges. now rewrite collectNudges_okPrefix. Qed.

Lemma generateInsights_Ok (b : backend) (userId : string) (r : insights) :
  generateInsights b userId = Ok r ->
  exists expenses categories user,
    getUserExpenses b = Ok expenses /\
    getUserCategories b userId = Ok categories /\
    getUserInfo b = Ok user /\
    nudges r = selectNudges (generateAllNudges b expenses categories user).
Proof.
  unfold generateInsights.
  destruct (getUserExpenses b) as [expenses|e]; simpl; [|discriminate].
  destruct (getUserCategories b userId) as [categories|e]; simpl; [|discriminate].
  destruct (getUserInfo b) as [user|e]; simpl; [|discriminate].
  destruct (analyzeSpendingTrends b); simpl; [|discriminate].
  destruct (analyzeCategorySpending b categories); simpl; [|discriminate].
  destruct (userStreak user); simpl; [|discriminate].
  intros H. injection H as <-. exists expenses, categories, user. simpl. auto.
Qed.

Lemma prioritizeNudges_sorted (l : list nudge) :
  Sorted (fun x y => nudge_le x y = true) (prioritizeNudges l).
Proof.
  apply sort_by_sorted. exact nudge_le_total.
Qed.

Lemma prioritizeNudges_perm (l : list nudge) : Permutation (prioritizeNudges l) l.
Proof. apply sort_by_perm. Qed.







(** ** Budget detector *)

Lemma budgetSkipped_false (c : category) :
  budgetSkipped c = false <-> exists m, monthlyBudget c = Some m /\ (0 < m)%Q.
Proof.
  unfold budgetSkipped. destruct (monthlyBudget c) as [m|]; split.
  - intros H. exists m. split; [reflexivity|].
    apply Qnot_le_lt. intros Hle. apply Qle_bool_iff in Hle. unfold Qleb in H. congruence.
  - intros (m' & Hm & Hpos). injection Hm as <-. unfold Qleb.
    destruct (Qle_bool m 0) eqn:E; [|reflexivity].
    apply Qle_bool_iff in E. exfalso. apply (Qlt_not_le _ _ Hpos E).
  - discriminate.
  - intros (m & Hm & _). discriminate.
Qed.

Lemma Qleb_true (x y : Q) : Qleb x y = true <-> (x <= y)%Q.
Proof. apply Qle_bool_iff. Qed.

Lemma Qleb_false (x y : Q) : Qleb x y = false <-> (y < x)%Q.
Proof.
  unfold Qleb. split.
  - intros H. apply Qnot_le_lt. intros Hle. apply Qle_bool_iff in Hle. congruence.
  - intros H. destruct (Qle_bool x y) eqn:E; [|reflexivity].
    apply Qle_bool_iff in E. exfalso. apply (Qlt_not_le _ _ H E).
Qed.

Lemma Qltb_true (x y : Q) : Qltb x y = true <-> (x < y)%Q.
Proof.
  unfold Qltb. rewrite Bool.negb_true_iff. apply Qleb_false.
Qed.

Lemma Qltb_false (x y : Q) : Qltb x y = false <-> (y <= x)%Q.
Proof.
  unfold Qltb. rewrite Bool.negb_false_iff. apply Qleb_true.
Qed.

Lemma detectBudgetOverspend_reads (b : backend) (cs : list category) (spent : string -> Q) :
  (forall c, In c cs -> getCategorySpendingThisMonth b (cat_id c) = Ok (spent (cat_id c))) ->
  detectBudgetOverspend b cs
  = Ok (flat_map (fun c => if budgetSkipped c then []
                           else budgetNudge (dateNow b) (remainingDaysInMonth b) c
                                            (spent (cat_id c))) cs).
Proof.
  induction cs as [|c cs IH]; intros Hreads; simpl; [reflexivity|].
  rewrite IH by (intros; apply Hreads; now right).
  destruct (budgetSkipped c); [reflexivity|].
  rewrite (Hreads c (or_introl eq_refl)). reflexivity.
Qed.

(** C2 (amended).  With every this-month spending read succeeding, the
    budget detector emits, for each category in order, nothing when the
    category has no positive budget, and otherwise exactly one of: an
    overage nudge (id prefix [budget_overage], priority high, actionable)
    when spent/budget*100 >= 100; a warning nudge (id prefix
    [budget_warning], priority medium, actionable) when that percentage is
    in [80, 100); nothing below 80.  The bands are exclusive, so a category
    never yields two nudges; the warning carries the same [type] field
    ([budget_overage]) as the overage. *)
Theorem detectBudgetOverspend_bands (b : backend) (cs : list category) (spent : string -> Q) :
  (forall c, In c cs -> getCategorySpendingThisMonth b (cat_id c) = Ok (spent (cat_id c))) ->
  detectBudgetOverspend b cs
  = Ok (flat_map (fun c => if budgetSkipped c then []
                           else budgetNudge (dateNow b) (remainingDaysInMonth b) c
                                            (spent (cat_id c))) cs) /\
  (forall c, budgetSkipped c = false <-> exists m, monthlyBudget c = Some m /\ (0 < m)%Q) /\
  (forall now rd c s,
     let p := budgetPercentage c s in
     ((100 <= p)%Q ->
        exists n, budgetNudge now rd c s = [n] /\ id_prefix n = "budget_overage" /\
                  type n = NUDGE_TYPES.BUDGET_OVERAGE /\
                  priority n = NUDGE_PRIORITY.HIGH /\ actionable n = true) /\
     ((80 <= p)%Q -> (p < 100)%Q ->
        exists n, budgetNudge now rd c s = [n] /\ id_prefix n = "budget_warning" /\
                  type n = NUDGE_TYPES.BUDGET_OVERAGE /\
                  priority n = NUDGE_PRIORITY.MEDIUM /\ actionable n = true) /\
     ((p < 80)%Q -> budgetNudge now rd c s = []) /\
     (List.length (budgetNudge now rd c s) <= 1)%nat).
Proof.
  intros Hreads. split; [now apply detectBudgetOverspend_reads|].
  split; [apply budgetSkipped_false|].
  intros now rd c s p. unfold budgetNudge. fold p.
  destruct (Qleb 100 p) eqn:E100.
  - apply Qleb_true in E100.
    split; [intros _; eexists; repeat split|].
    split; [intros _ Hlt; exfalso; apply (Qlt_not_le _ _ Hlt E100)|].
    split; [intros Hlt; exfalso; apply (Qlt_not_le p 80%Q); [exact Hlt|];
            apply Qle_trans with (100%Q); [discriminate | exact E100]|].
    simpl. lia.
  - apply Qleb_false in E100.
    destruct (Qleb 80 p) eqn:E80.
    + apply Qleb_true in E80.
      split; [intros Hle; exfalso; apply (Qlt_not_le _ _ E100 Hle)|].
      split; [intros _ _; eexists; repeat split|].
      split; [intros Hlt; exfalso; apply (Qlt_not_le _ _ Hlt E80)|].
      simpl. lia.
    + apply Qleb_false in E80.
      split; [intros Hle; exfalso; apply (Qlt_not_le _ _ E100 Hle)|].
      split; [intros Hle; exfalso; apply (Qlt_not_le _ _ E80 Hle)|].
      split; [reflexivity|]. simpl. lia.
Qed.

Lemma detectBudgetOverspend_bands_witness :
  detectBudgetOverspend twoWarningsBackend
    [sampleCategory "A" (Some 100%Q); sampleCategory "B" (Some 100%Q)]
  = Ok (flat_map (fun c => if budgetSkipped c then []
                           else budgetNudge 1700000000000 10 c 90%Q)
          [sampleCategory "A" (Some 100%Q); sampleCategory "B" (Some 100%Q)]).
Proof.
  apply (detectBudgetOverspend_bands twoWarningsBackend _ (fun _ => 90%Q)).
  intros c _. reflexivity.
Defined.

(** C2 counterexample: a warning and an overage for the same category
    carry the same [type]. *)
Lemma budget_warning_type_is_overage :
  exists w o,
    budgetNudge 1700000000000 10 (sampleCategory "A" (Some 100%Q)) 90%Q = [w] /\
    budgetNudge 1700000000000 10 (sampleCategory "A" (Some 100%Q)) 120%Q = [o] /\
    priority w = NUDGE_PRIORITY.MEDIUM /\ priority o = NUDGE_PRIORITY.HIGH /\
    type w = type o.
Proof.
  do 2 eexists. split; [vm_compute; reflexivity|].
  split; [vm_compute; reflexivity|]. repeat split.
Qed.

(** ** Spending-trend detector *)

(** C3.  The trend detector emits nothing when the previous-period total
    is 0; otherwise, with change% = (current - previous)/previous*100, it
    emits nothing when |change%| < 15, an increase nudge (priority medium,
    actionable) when change% > 15 and a decrease nudge (priority low, not
    actionable) when change% < -10; the detector reads both totals and
    feeds them to this decision. *)
Theorem trendNudge_bands (now : Z) (currentPeriodTotal previousPeriodTotal : Q) :
  ((previousPeriodTotal == 0)%Q -> trendNudge now currentPeriodTotal previousPeriodTotal = None) /\
  (~ (previousPeriodTotal == 0)%Q ->
   let change := changePercentageOf currentPeriodTotal previousPeriodTotal in
   ((Qabs change < 15)%Q -> trendNudge now currentPeriodTotal previousPeriodTotal = None) /\
   (~ (Qabs change < 15)%Q -> (15 < change)%Q ->
      exists n, trendNudge now currentPeriodTotal previousPeriodTotal = Some n /\
                id_prefix n = "spending_increase" /\ type n = NUDGE_TYPES.SPENDING_TREND /\
                priority n = NUDGE_PRIORITY.MEDIUM /\ actionable n = true) /\
   (~ (Qabs change < 15)%Q -> (change < -10)%Q ->
      exists n, trendNudge now currentPeriodTotal previousPeriodTotal = Some n /\
                id_prefix n = "spending_decrease" /\ type n = NUDGE_TYPES.SPENDING_TREND /\
                priority n = NUDGE_PRIORITY.LOW /\ actionable n = false)) /\
  (forall b, getTotalSpending b true = Ok currentPeriodTotal ->
             getTotalSpending b false = Ok previousPeriodTotal ->
             analyzeSpendingTrendsForNudge b
             = Ok (trendNudge (dateNow b) currentPeriodTotal previousPeriodTotal)).
Proof.
  split; [|split].
  - intros H0. unfold trendNudge. apply Qeq_bool_iff in H0. now rewrite H0.
  - intros H0 change. unfold trendNudge.
    destruct (Qeq_bool previousPeriodTotal 0) eqn:E0.
    { apply Qeq_bool_iff in E0. contradiction. }
    fold change.
    split; [|split].
    + intros Habs. apply Qltb_true in Habs. now rewrite Habs.
    + intros Habs Hup.
      assert (Habs' : Qltb (Qabs change) 15 = false) by (apply Qltb_false, Qnot_lt_le, Habs).
      rewrite Habs'. apply Qltb_true in Hup. rewrite Hup.
      eexists; repeat split.
    + intros Habs Hdown.
      assert (Habs' : Qltb (Qabs change) 15 = false) by (apply Qltb_false, Qnot_lt_le, Habs).
      rewrite Habs'.
      destruct (Qltb 15 change) eqn:Eup.
      * apply Qltb_true in Eup. exfalso.
        apply (Qlt_irrefl change). apply Qlt_trans with (-10)%Q; [exact Hdown|].
        apply Qlt_trans with (15%Q); [reflexivity | exact Eup].
      * apply Qltb_true in Hdown. rewrite Hdown. eexists; repeat split.
  - intros b Hc Hp. unfold analyzeSpendingTrendsForNudge. now rewrite Hc, Hp.
Qed.

(** ** Weekend detector *)

(** C4.  The weekend detector emits nothing when the weekend (Saturday or
    Sunday) or the weekday partition is empty; otherwise it emits one
    [weekend_spending] nudge exactly when ratio = weekendAvg/weekdayAvg >
    1.8, with priority high when ratio > 2.5 and medium otherwise,
    actionable, and metadata ratio, weekendAvg and weekdayAvg rounded to 2
    decimals; it emits nothing when ratio <= 1.8. *)
Theorem detectWeekendSpending_spec (now : Z) (es : list expense) :
  (weekendExpenses es = [] \/ weekdayExpenses es = [] -> detectWeekendSpending now es = None) /\
  (weekendExpenses es <> [] -> weekdayExpenses es <> [] ->
   let ratio := weekendRatio es in
   ((1.8 < ratio)%Q ->
      exists n, detectWeekendSpending now es = Some n /\
        id_prefix n = "weekend_spending" /\ type n = NUDGE_TYPES.WEEKEND_SPENDING /\
        ((2.5 < ratio)%Q -> priority n = NUDGE_PRIORITY.HIGH) /\
        ((ratio <= 2.5)%Q -> priority n = NUDGE_PRIORITY.MEDIUM) /\
        actionable n = true /\
        metadata n = [("ratio", MNum (toFixed 2 ratio));
                      ("weekendAvg", MNum (toFixed 2 (average (weekendExpenses es))));
                      ("weekdayAvg", MNum (toFixed 2 (average (weekdayExpenses es))))]) /\
   ((ratio <= 1.8)%Q -> detectWeekendSpending now es = None)).
Proof.
  unfold detectWeekendSpending. split.
  - intros [H|H]; rewrite H; simpl; [reflexivity|].
    now rewrite Bool.orb_true_r.
  - intros Hwe Hwd.
    assert (E1 : Nat.eqb (List.length (weekendExpenses es)) 0 = false)
      by (destruct (weekendExpenses es); simpl; congruence).
    assert (E2 : Nat.eqb (List.length (weekdayExpenses es)) 0 = false)
      by (destruct (weekdayExpenses es); simpl; congruence).
    rewrite E1, E2. simpl. unfold weekendRatio. split.
    + intros Hr. apply Qltb_true in Hr. rewrite Hr.
      eexists; split; [reflexivity|].
      repeat split; simpl.
      * intros H25. apply Qltb_true in H25. now rewrite H25.
      * intros H25. apply Qltb_false in H25. now rewrite H25.
    + intros Hr. apply Qltb_false in Hr. now rewrite Hr.
Qed.

(** ** Category-pattern detector *)

Lemma groupAdd_keys (k x : string) (e : expense) (g : list (string * list expense)) :
  In x (map fst (groupAdd k e g)) -> x = k \/ In x (map fst g).
Proof.
  induction g as [|[k' es] g IH]; simpl.
  - intros [H|[]]. now left.
  - destruct (String.eqb_spec k k') as [->|Hne]; simpl.
    + intros [H|H]; [right; now left | right; now right].
    + intros [H|H]; [right; now left|].
      destruct (IH H) as [H'|H']; [now left | right; now right].
Qed.

Lemma groupAdd_NoDup (k : string) (e : expense) (g : list (string * list expense)) :
  NoDup (map fst g) -> NoDup (map fst (groupAdd k e g)).
Proof.
  induction g as [|[k' es] g IH]; simpl; intros Hnd.
  - repeat constructor. intros [].
  - inversion Hnd as [|? ? Hnin Hnd']; subst.
    destruct (String.eqb_spec k k') as [->|Hne]; simpl.
    + now constructor.
    + constructor; [|now apply IH].
      intros Hin. apply groupAdd_keys in Hin as [Hin|Hin]; [congruence | contradiction].
Qed.

Lemma groupAdd_lookup (k k0 : string) (e : expense) (g : list (string * list expense)) :
  groupLookup k (groupAdd k0 e g)
  = if String.eqb k0 k then (groupLookup k g ++ [e])%list else groupLookup k g.
Proof.
  induction g as [|[k' es] g IH]; simpl.
  - destruct (String.eqb k0 k); reflexivity.
  - destruct (String.eqb_spec k0 k') as [->|Hne]; simpl.
    + destruct (String.eqb k' k); reflexivity.
    + rewrite IH. destruct (String.eqb_spec k' k) as [->|Hne'].
      * destruct (String.eqb_spec k0 k); congruence.
      * reflexivity.
Qed.

Lemma groupByCategory_fold (es : list expense) (g : list (string * list expense)) :
  NoDup (map fst g) ->
  NoDup (map fst (fold_left (fun g e => groupAdd (categoryId e) e g) es g)) /\
  (forall k, groupLookup k (fold_left (fun g e => groupAdd (categoryId e) e g) es g)
             = (groupLookup k g ++ filter (fun e => String.eqb (categoryId e) k) es)%list).
Proof.
  revert g. induction es as [|e es IH]; intros g Hnd; simpl.
  - split; [exact Hnd|]. intros k. now rewrite app_nil_r.
  - destruct (IH (groupAdd (categoryId e) e g)) as [Hnd' Hlk];
      [now apply groupAdd_NoDup|].
    split; [exact Hnd'|]. intros k. rewrite Hlk, groupAdd_lookup.
    destruct (String.eqb (categoryId e) k); simpl; [now rewrite <- app_assoc|reflexivity].
Qed.

Lemma groupByCategory_spec (es : list expense) :
  NoDup (map fst (groupByCategory es)) /\
  (forall k, groupLookup k (groupByCategory es)
             = filter (fun e => String.eqb (categoryId e) k) es).
Proof.
  destruct (groupByCategory_fold es [] (NoDup_nil _)) as [Hnd Hlk].
  split; [exact Hnd|]. intros k. apply Hlk.
Qed.

Lemma categoryPatternNudges_categoryId (now : Z) (cats : list category)
  (k : string) (l : list expense) (n : nudge) :
  In n (categoryPatternNudges now cats (k, l)) -> nudgeCategoryId n = k.
Proof.
  unfold categoryPatternNudges.
  destruct (find _ cats) as [c|]; [|intros []].
  unfold smallPurchaseNudge, spikeNudge. intros Hin.
  apply in_app_or in Hin as [Hin|Hin].
  - destruct (Nat.leb 10 _); [|destruct Hin].
    destruct Hin as [<-|[]]. reflexivity.
  - destruct (Nat.leb 3 _); [|destruct Hin].
    destruct (Qltb _ _); [|destruct Hin].
    destruct Hin as [<-|[]]. reflexivity.
Qed.

Lemma categoryPatternNudges_nil (now : Z) (cats : list category) (k : string) :
  categoryPatternNudges now cats (k, []) = [].
Proof.
  unfold categoryPatternNudges. destruct (find _ cats); reflexivity.
Qed.

Lemma filter_none {A} (f : A -> bool) (l : list A) :
  (forall x, In x l -> f x = false) -> filter f l = [].
Proof.
  induction l as [|x l IH]; simpl; intros H; [reflexivity|].
  rewrite (H x (or_introl eq_refl)). apply IH. intros y Hy. apply H. now right.
Qed.

Lemma filter_spike_flat_map (now : Z) (cats : list category) (k : string)
  (g : list (string * list expense)) :
  NoDup (map fst g) ->
  filter (isSpikeFor k) (flat_map (categoryPatternNudges now cats) g)
  = filter (isSpikeFor k) (categoryPatternNudges now cats (k, groupLookup k g)).
Proof.
  induction g as [|[k' l] g IH]; cbn [flat_map groupLookup]; intros Hnd.
  - now rewrite categoryPatternNudges_nil.
  - inversion Hnd as [|? ? Hnin Hnd']; subst.
    rewrite filter_app, IH by exact Hnd'.
    destruct (String.eqb_spec k' k) as [->|Hne].
    + assert (Hlk : groupLookup k g = []).
      { clear - Hnin. induction g as [|[k'' l''] g IH]; simpl in *; [reflexivity|].
        destruct (String.eqb_spec k'' k) as [->|]; [exfalso; apply Hnin; now left|].
        apply IH. intros H. apply Hnin. now right. }
      rewrite Hlk, categoryPatternNudges_nil. simpl. apply app_nil_r.
    + assert (Hnone : filter (isSpikeFor k) (categoryPatternNudges now cats (k', l)) = []).
      { apply filter_none. intros n Hin.
        apply categoryPatternNudges_categoryId in Hin.
        unfold isSpikeFor. rewrite Hin.
        destruct (String.eqb_spec k' k); [contradiction|]. apply Bool.andb_false_r. }
      now rewrite Hnone.
Qed.

Lemma sortDescending_sorted (l : list Q) :
  Sorted (fun x y => (y <= x)%Q) (sortDescending l).
Proof.
  apply Sorted_weaken with (R := fun a b => Qleb (b - a) 0 = true).
  - intros a b H. apply Qleb_true in H. lra.
  - apply sort_by_sorted. intros a b H.
    apply Qleb_false in H. apply Qleb_true. lra.
Qed.

Lemma sortDescending_perm (l : list Q) : Permutation (sortDescending l) l.
Proof. apply sort_by_perm. Qed.

(** C5.  For a category among the gathered ones, the spike detector sorts
    the amounts of that category's expenses in the window descending,
    takes [median] = the element at index floor(n/2) of that list and
    [largest] = its first element, and emits exactly one [unusual_spike]
    nudge (priority medium, actionable) for the category iff n >= 3 and
    largest > median * 5; with fewer than 3 expenses it emits none. *)
Theorem detectCategoryPatterns_spike (now : Z) (es : list expense) (cats : list category)
  (k : string) (c : category) :
  find (fun c => String.eqb (cat_id c) k) cats = Some c ->
  let amounts := sortDescending (map amount (filter (fun e => String.eqb (categoryId e) k) es)) in
  Sorted (fun x y => (y <= x)%Q) amounts /\
  Permutation amounts (map amount (filter (fun e => String.eqb (categoryId e) k) es)) /\
  spikeMedian amounts = nth (Nat.div (List.length amounts) 2) amounts 0%Q /\
  spikeLargest amounts = nth 0 amounts 0%Q /\
  ((exists n, filter (isSpikeFor k) (detectCategoryPatterns now es cats) = [n] /\
              id_prefix n = "unusual_spike" /\ type n = NUDGE_TYPES.CATEGORY_PATTERN /\
              priority n = NUDGE_PRIORITY.MEDIUM /\ actionable n = true)
   <-> ((3 <= List.length amounts)%nat /\ (spikeMedian amounts * 5 < spikeLargest amounts)%Q)) /\
  (~ ((3 <= List.length amounts)%nat /\ (spikeMedian amounts * 5 < spikeLargest amounts)%Q) ->
   filter (isSpikeFor k) (detectCategoryPatterns now es cats) = []) /\
  ((List.length (filter (fun e => String.eqb (categoryId e) k) es) < 3)%nat ->
   filter (isSpikeFor k) (detectCategoryPatterns now es cats) = []).
Proof.
  intros Hfind amounts.
  destruct (groupByCategory_spec es) as [Hnd Hlk].
  assert (Hspikes : filter (isSpikeFor k) (detectCategoryPatterns now es cats)
                    = spikeNudge now k c (filter (fun e => String.eqb (categoryId e) k) es)).
  { unfold detectCategoryPatterns. rewrite filter_spike_flat_map by exact Hnd.
    rewrite Hlk. unfold categoryPatternNudges. rewrite Hfind, filter_app.
    unfold smallPurchaseNudge, spikeNudge.
    repeat match goal with |- context [if ?t then _ else _] => destruct t end;
      simpl; unfold isSpikeFor, nudgeCategoryId; simpl; rewrite ?String.eqb_refl;
      reflexivity. }
  assert (Hlen : List.length amounts
                 = List.length (filter (fun e => String.eqb (categoryId e) k) es)).
  { unfold amounts. rewrite (Permutation_length (sortDescending_perm _)). apply length_map. }
  rewrite Hspikes. unfold spikeNudge. fold amounts.
  split; [apply sortDescending_sorted|].
  split; [apply sortDescending_perm|].
  split; [reflexivity|]. split; [reflexivity|].
  split; [|split].
  - split.
    + intros (n & Hn & _).
      destruct (Nat.leb 3 (List.length amounts)) eqn:E3; [|discriminate].
      destruct (Qltb (spikeMedian amounts * 5) (spikeLargest amounts)) eqn:Es; [|discriminate].
      split; [now apply Nat.leb_le | now apply Qltb_true].
    + intros [H3 Hs]. apply Nat.leb_le in H3. apply Qltb_true in Hs.
      rewrite H3, Hs. eexists; repeat split.
  - intros Hnot.
    destruct (Nat.leb 3 (List.length amounts)) eqn:E3; [|reflexivity].
    destruct (Qltb (spikeMedian amounts * 5) (spikeLargest amounts)) eqn:Es; [|reflexivity].
    exfalso. apply Hnot. split; [now apply Nat.leb_le | now apply Qltb_true].
  - intros Hlt. rewrite <- Hlen in Hlt.
    destruct (Nat.leb 3 (List.length amounts)) eqn:E3; [|reflexivity].
    apply Nat.leb_le in E3. lia.
Qed.

Lemma detectCategoryPatterns_spike_witness :
  spikeMedian (sortDescending (map amount spikeSample)) = 150%Q /\
  exists n, filter (isSpikeFor "A")
              (detectCategoryPatterns 1700000000000 spikeSample [sampleCategory "A" None])
            = [n] /\
            id_prefix n = "unusual_spike" /\ type n = NUDGE_TYPES.CATEGORY_PATTERN /\
            priority n = NUDGE_PRIORITY.MEDIUM /\ actionable n = true.
Proof.
  split; [vm_compute; reflexivity|].
  destruct (detectCategoryPatterns_spike 1700000000000 spikeSample [sampleCategory "A" None]
              "A" (sampleCategory "A" None) eq_refl)
    as (_ & _ & _ & _ & [_ Hiff] & _ & _).
  apply Hiff. split; [apply Nat.leb_le; vm_compute; reflexivity | vm_compute; reflexivity].
Defined.

(** ** Streak detector *)

Lemma in_motivationalNudges (now : Z) (s : streak) (n : nudge) :
  In n (motivationalNudges now s) <->
  (current s = 7 /\ n = {| id_prefix := "streak_7"; id_ts := now;
                           type := NUDGE_TYPES.STREAK_CELEBRATION;
                           priority := NUDGE_PRIORITY.LOW; actionable := false;
                           metadata := [("streakDays", MNum (inject_Z (current s)))] |}) \/
  ((current s = longest s /\ longest s - 1 < current s /\ 0 < current s) /\
   n = {| id_prefix := "personal_best"; id_ts := now;
          type := NUDGE_TYPES.STREAK_CELEBRATION;
          priority := NUDGE_PRIORITY.LOW; actionable := false;
          metadata := [("streakDays", MNum (inject_Z (current s)));
                       ("personalBest", MBool true)] |}).
Proof.
  unfold motivationalNudges. rewrite in_app_iff.
  destruct (Z.eqb_spec (current s) 7) as [H7|H7];
  destruct (Z.eqb_spec (current s) (longest s)) as [HL|HL];
  destruct (Z.ltb_spec (longest s - 1) (current s)) as [H1|H1];
  destruct (Z.ltb_spec 0 (current s)) as [H0|H0]; simpl;
  split; intros H; intuition (try lia; subst; auto).
Qed.

(** C6.  The streak detector emits a [streak_7] milestone nudge (priority
    low, not actionable) iff the current streak C is exactly 7, and a
    [personal_best] nudge (priority low, not actionable, metadata
    personalBest = true) iff C = L, C > L - 1 and C > 0, the two tested
    independently (both when C = 7 = L); for C = 7 and L = 10 it emits
    exactly one nudge, the milestone. *)
Theorem motivationalNudges_spec (now : Z) (s : streak) :
  ((exists n, In n (motivationalNudges now s) /\ id_prefix n = "streak_7") <-> current s = 7) /\
  ((exists n, In n (motivationalNudges now s) /\ id_prefix n = "personal_best") <->
   (current s = longest s /\ longest s - 1 < current s /\ 0 < current s)) /\
  Forall (fun n => priority n = NUDGE_PRIORITY.LOW /\ actionable n = false /\
                   type n = NUDGE_TYPES.STREAK_CELEBRATION) (motivationalNudges now s) /\
  (forall n, In n (motivationalNudges now s) -> id_prefix n = "personal_best" ->
             metaLookup "personalBest" (metadata n) = Some (MBool true)) /\
  generateMotivationalNudges now (Some s) = Ok (motivationalNudges now s) /\
  map id_prefix (motivationalNudges now {| current := 7; longest := 10 |}) = ["streak_7"] /\
  map id_prefix (motivationalNudges now {| current := 7; longest := 7 |})
    = ["streak_7"; "personal_best"].
Proof.
  split; [|split; [|split; [|split; [|split]]]].
  - split.
    + intros (n & Hin & Hp). apply in_motivationalNudges in Hin.
      destruct Hin as [[H7 ->]|[_ ->]]; [exact H7 | discriminate].
    + intros H7. eexists. split; [apply in_motivationalNudges; left; split; [exact H7|reflexivity]|].
      reflexivity.
  - split.
    + intros (n & Hin & Hp). apply in_motivationalNudges in Hin.
      destruct Hin as [[_ ->]|[Hc ->]]; [discriminate | exact Hc].
    + intros Hc. eexists. split; [apply in_motivationalNudges; right; split; [exact Hc|reflexivity]|].
      reflexivity.
  - apply Forall_forall. intros n Hin. apply in_motivationalNudges in Hin.
    destruct Hin as [[_ ->]|[_ ->]]; repeat split.
  - intros n Hin Hp. apply in_motivationalNudges in Hin.
    destruct Hin as [[_ ->]|[_ ->]]; [discriminate | reflexivity].
  - reflexivity.
  - split; reflexivity.
Qed.

(** ** Insight aggregator *)

(** C7.  The aggregator labels the trend [up] iff change% > 5, [down] iff
    change% < -5 and [stable] otherwise when the previous total is
    positive, and reports changePercentage 0 with trend [stable] when the
    previous total is 0; for totals 1000 then 1200 (change% 20) the label
    is [up] and the trend detector also emits its increase nudge. *)
Theorem trendLabel_spec (currentPeriodTotal previousPeriodTotal : Q) :
  ((0 < previousPeriodTotal)%Q ->
   let change := changePercentageOf currentPeriodTotal previousPeriodTotal in
   let sp := spendingPatternsOf currentPeriodTotal previousPeriodTotal in
   (sp_trend sp = up <-> (5 < change)%Q) /\
   (sp_trend sp = down <-> (change < -5)%Q) /\
   (sp_trend sp = stable <-> (-5 <= change /\ change <= 5)%Q) /\
   sp_changePercentage sp = toFixed 1 change) /\
  ((previousPeriodTotal == 0)%Q ->
   sp_trend (spendingPatternsOf currentPeriodTotal previousPeriodTotal) = stable /\
   (sp_changePercentage (spendingPatternsOf currentPeriodTotal previousPeriodTotal) == 0)%Q) /\
  (forall b, getTotalSpending b true = Ok currentPeriodTotal ->
             getTotalSpending b false = Ok previousPeriodTotal ->
             analyzeSpendingTrends b
             = Ok (spendingPatternsOf currentPeriodTotal previousPeriodTotal)) /\
  sp_trend (spendingPatternsOf 1200 1000) = up /\
  map id_prefix (optionToList (trendNudge 1700000000000 1200 1000)) = ["spending_increase"].
Proof.
  split; [|split; [|split; [|split]]].
  - intros Hpos change sp. unfold sp, spendingPatternsOf, trendLabel.
    assert (Hp : Qltb 0 previousPeriodTotal = true) by now apply Qltb_true.
    rewrite Hp. fold change.
    destruct (Qltb 5 change) eqn:E5; [|destruct (Qltb change (-5)) eqn:Em5];
      simpl; rewrite ?Qltb_true, ?Qltb_false in *.
    + repeat split; try discriminate; intros; lra.
    + repeat split; try discriminate; intros; lra.
    + repeat split; try discriminate; intros; lra.
  - intros H0. unfold spendingPatternsOf, trendLabel.
    assert (Hp : Qltb 0 previousPeriodTotal = false) by (apply Qltb_false; lra).
    rewrite Hp. simpl. split; [reflexivity|]. vm_compute. reflexivity.
  - intros b Hc Hp. unfold analyzeSpendingTrends. now rewrite Hc, Hp.
  - vm_compute. reflexivity.
  - vm_compute. reflexivity.
Qed.

(** ** Data gatherer *)

(** C9 (amended).  The gatherer returns exactly the user's active
    categories, whatever their monthly budget: a category with a zero or
    absent budget is gathered, and it is the budget detector and the
    category-alert aggregator that skip it. *)
Theorem getUserCategories_spec (b : backend) (userId : string) :
  (forall l c, getUserCategories b userId = Ok l ->
     In c l <-> exists cs, categoryCollection b = Ok cs /\ In c cs /\
                           cat_userId c = userId /\ cat_isActive c = true) /\
  (forall c cs, budgetSkipped c = true ->
     detectBudgetOverspend b (c :: cs) = detectBudgetOverspend b cs /\
     analyzeCategorySpending b (c :: cs) = analyzeCategorySpending b cs).
Proof.
  split.
  - intros l c. unfold getUserCategories.
    destruct (categoryCollection b) as [cs|e]; simpl; [|discriminate].
    intros H. injection H as <-. rewrite filter_In, Bool.andb_true_iff, String.eqb_eq.
    split.
    + intros (Hin & Hu & Ha). now exists cs.
    + intros (cs' & Hcs & Hin & Hu & Ha). injection Hcs as <-. auto.
  - intros c cs Hs. simpl. now rewrite Hs.
Qed.

(** C9 counterexample: an active category of the user with a zero
    monthly budget, which is not budget-tracked, is in the gathered set. *)
Lemma getUserCategories_keeps_zero_budget :
  exists l,
    getUserCategories zeroBudgetBackend "u1" = Ok l /\
    In (sampleCategory "A" (Some 0%Q)) l /\
    budgetSkipped (sampleCategory "A" (Some 0%Q)) = true.
Proof.
  eexists. split; [vm_compute; reflexivity|].
  split; [now left|]. vm_compute; reflexivity.
Qed.

(** ** Nudge types produced *)

Lemma budgetNudge_notSavings now rd c s : Forall notSavings (budgetNudge now rd c s).
Proof.
  unfold budgetNudge.
  repeat match goal with |- context [if ?t then _ else _] => destruct t end;
    repeat constructor; discriminate.
Qed.

Lemma detectBudgetOverspend_notSavings (b : backend) (cs : list category) (l : list nudge) :
  detectBudgetOverspend b cs = Ok l -> Forall notSavings l.
Proof.
  revert l. induction cs as [|c cs IH]; intros l H; simpl in H.
  - injection H as <-. constructor.
  - destruct (budgetSkipped c); [now apply IH|].
    destruct (getCategorySpendingThisMonth b (cat_id c)) as [s|e]; simpl in H; [|discriminate].
    destruct (detectBudgetOverspend b cs) as [rest|e] eqn:Er; simpl in H; [|discriminate].
    injection H as <-. apply Forall_app. split; [apply budgetNudge_notSavings | now apply IH].
Qed.

Lemma evaluatorSteps_notSavings b expenses categories user (ns : list nudge) :
  In (Ok ns) (evaluatorSteps b expenses categories user) -> Forall notSavings ns.
Proof.
  unfold evaluatorSteps. simpl.
  intros [H|[H|[H|[H|[H|[H|[]]]]]]].
  - injection H as <-. unfold detectWeekendSpending.
    repeat match goal with |- context [if ?t then _ else _] => destruct t end;
      simpl; repeat constructor; discriminate.
  - eapply detectBudgetOverspend_notSavings. exact H.
  - unfold analyzeSpendingTrendsForNudge in H.
    destruct (getTotalSpending b true); simpl in H; [|discriminate].
    destruct (getTotalSpending b false); simpl in H; [|discriminate].
    injection H as <-. unfold trendNudge.
    repeat match goal with |- context [if ?t then _ else _] => destruct t end;
      simpl; repeat constructor; discriminate.
  - unfold generateMotivationalNudges in H.
    destruct user as [s|]; simpl in H; [|discriminate].
    injection H as <-. apply Forall_forall. intros n Hin.
    apply in_motivationalNudges in Hin as [[_ ->]|[_ ->]]; discriminate.
  - injection H as <-. unfold detectCategoryPatterns.
    apply Forall_forall. intros n Hin. apply in_flat_map in Hin as ([k l] & _ & Hin).
    unfold categoryPatternNudges in Hin. destruct (find _ categories); [|destruct Hin].
    unfold smallPurchaseNudge, spikeNudge in Hin.
    repeat match goal with H : context [if ?t then _ else _] |- _ => destruct t end;
      simpl in Hin; intuition (subst; discriminate).
  - injection H as <-. constructor.
Qed.

Lemma okPrefix_in (steps : list (result (list nudge))) (ns : list nudge) :
  In ns (okPrefix steps) -> In (Ok ns) steps.
Proof.
  induction steps as [|[ns'|e] rest IH]; simpl; [intros []| |intros []].
  intros [->|H]; [now left | right; now apply IH].
Qed.

(** C10.  [generateInsights] never returns a nudge of type
    [savings_milestone], although the type is declared: the savings
    detector always returns the empty list and no other evaluator uses
    that type. *)
Theorem generateInsights_no_savings_milestone (b : backend) (userId : string) (r : insights) :
  generateInsights b userId = Ok r ->
  Forall (fun n => type n <> NUDGE_TYPES.SAVINGS_MILESTONE) (nudges r) /\
  detectSavingsMilestones = [] /\
  In NUDGE_TYPES.SAVINGS_MILESTONE NUDGE_TYPES.all.
Proof.
  intros H. apply generateInsights_Ok in H as (expenses & categories & user & _ & _ & _ & Hn).
  split; [|split; [reflexivity | simpl; tauto]].
  rewrite Hn. unfold selectNudges.
  apply Forall_forall. intros n Hin.
  assert (Hin' : In n (prioritizeNudges (generateAllNudges b expenses categories user))).
  { rewrite <- (firstn_skipn 5). apply in_or_app. now left. }
  apply (Permutation_in _ (prioritizeNudges_perm _)) in Hin'.
  rewrite generateAllNudges_okPrefix in Hin'.
  apply in_concat in Hin' as (ns & Hns & Hn').
  apply okPrefix_in, evaluatorSteps_notSavings in Hns.
  rewrite Forall_forall in Hns. exact (Hns n Hn').
Qed.

Lemma generateInsights_no_savings_milestone_witness :
  exists r, generateInsights failingBudgetBackend "u1" = Ok r /\
            Forall (fun n => type n <> NUDGE_TYPES.SAVINGS_MILESTONE) (nudges r).
Proof.
  destruct (generateInsights failingBudgetBackend "u1") as [r|e] eqn:E.
  - exists r. split; [reflexivity|].
    exact (proj1 (generateInsights_no_savings_milestone _ _ _ E)).
  - vm_compute in E. discriminate.
Defined.

(* ================================================================== *)
(** * Further properties of the code *)

(** ** The category-alert aggregator *)

Lemma Qleb_80_of_100 (p : Q) : Qleb 100 p = true -> Qleb 80 p = true.
Proof. rewrite !Qleb_true. intros H. lra. Qed.

Lemma analyzeCategorySpending_reads (b : backend) (cs : list category) (spent : string -> Q) :
  (forall c, In c cs -> budgetSkipped c = false ->
     getCategorySpending b (cat_id c) = Ok (spent (cat_id c))) ->
  analyzeCategorySpending b cs
  = Ok (map (fun c => {| alert_categoryId := cat_id c;
                         alert_spent := toFixed 2 (spent (cat_id c));
                         alert_percentage := toFixed 1 (budgetPercentage c (spent (cat_id c)));
                         overBudget := Qleb 100 (budgetPercentage c (spent (cat_id c))) |})
            (filter (fun c => negb (budgetSkipped c)
                              && Qleb 80 (budgetPercentage c (spent (cat_id c)))) cs)).
Proof.
  induction cs as [|c cs IH]; intros H; simpl; [reflexivity|].
  assert (IH' := IH (fun c' Hin => H c' (or_intror Hin))).
  destruct (budgetSkipped c) eqn:Es; simpl; [exact IH'|].
  rewrite (H c (or_introl eq_refl) Es). simpl. rewrite IH'. simpl.
  destruct (Qleb 100 (budgetPercentage c (spent (cat_id c)))) eqn:E100.
  - rewrite (Qleb_80_of_100 _ E100). simpl. rewrite E100. reflexivity.
  - destruct (Qleb 80 (budgetPercentage c (spent (cat_id c)))); simpl;
      rewrite ?E100; reflexivity.
Qed.

Lemma analyzeCategorySpending_fails (b : backend) (cs : list category) :
  (exists c e, In c cs /\ budgetSkipped c = false /\ getCategorySpending b (cat_id c) = Err e) ->
  exists e, analyzeCategorySpending b cs = Err e.
Proof.
  induction cs as [|c cs IH]; intros (c' & e & Hin & Hs & Hr); [destruct Hin|].
  simpl. destruct Hin as [<-|Hin].
  - rewrite Hs, Hr. now exists e.
  - destruct (budgetSkipped c); [apply IH; now exists c', e|].
    destruct (getCategorySpending b (cat_id c)) as [s|e0]; simpl; [|now exists e0].
    destruct IH as [e1 He1]; [now exists c', e|]. rewrite He1. now exists e1.
Qed.

(** X1.  When every read it makes succeeds, the category-alert aggregator
    returns, in category order, one alert for each category with a
    positive budget whose spending in the window is at least 80% of it;
    the alert has [overBudget] true exactly when the percentage is at
    least 100, and reports the spending rounded to 2 decimals and the
    percentage to 1.  Categories without a positive budget are not read
    and get no alert.  If one of its reads fails, it fails. *)
Theorem analyzeCategorySpending_alerts (b : backend) (cs : list category) :
  (forall spent : string -> Q,
     (forall c, In c cs -> budgetSkipped c = false ->
        getCategorySpending b (cat_id c) = Ok (spent (cat_id c))) ->
     analyzeCategorySpending b cs
     = Ok (map (fun c => {| alert_categoryId := cat_id c;
                            alert_spent := toFixed 2 (spent (cat_id c));
                            alert_percentage := toFixed 1 (budgetPercentage c (spent (cat_id c)));
                            overBudget := Qleb 100 (budgetPercentage c (spent (cat_id c))) |})
               (filter (fun c => negb (budgetSkipped c)
                                 && Qleb 80 (budgetPercentage c (spent (cat_id c)))) cs))) /\
  ((exists c e, In c cs /\ budgetSkipped c = false /\ getCategorySpending b (cat_id c) = Err e) ->
   exists e, analyzeCategorySpending b cs = Err e).
Proof.
  split; [intros spent; apply analyzeCategorySpending_reads | apply analyzeCategorySpending_fails].
Qed.

Lemma detectBudgetOverspend_budgeted_reads (b : backend) (cs : list category) (spent : string -> Q) :
  (forall c, In c cs -> budgetSkipped c = false ->
     getCategorySpendingThisMonth b (cat_id c) = Ok (spent (cat_id c))) ->
  detectBudgetOverspend b cs
  = Ok (flat_map (fun c => if budgetSkipped c then []
                           else budgetNudge (dateNow b) (remainingDaysInMonth b) c
                                            (spent (cat_id c))) cs).
Proof.
  induction cs as [|c cs IH]; intros H; simpl; [reflexivity|].
  assert (IH' := IH (fun c' Hin => H c' (or_intror Hin))).
  destruct (budgetSkipped c) eqn:Es; [exact IH'|].
  rewrite (H c (or_introl eq_refl) Es). simpl. rewrite IH'. reflexivity.
Qed.

(** X2.  When the aggregator's read of a category's spending in the window
    and the budget detector's read of its spending this month give the
    same amount for every budgeted category, the two flag the same
    categories in the same order: a category gets an alert exactly when
    it gets a budget nudge, and the alert is [overBudget] exactly when the
    nudge has priority high. *)
Theorem budget_alerts_match_budget_nudges (b : backend) (cs : list category) (spent : string -> Q) :
  (forall c, In c cs -> budgetSkipped c = false ->
     getCategorySpending b (cat_id c) = Ok (spent (cat_id c)) /\
     getCategorySpendingThisMonth b (cat_id c) = Ok (spent (cat_id c))) ->
  exists alerts ns,
    analyzeCategorySpending b cs = Ok alerts /\
    detectBudgetOverspend b cs = Ok ns /\
    map alert_categoryId alerts = map nudgeCategoryId ns /\
    map overBudget alerts = map (fun n => String.eqb (priority n) NUDGE_PRIORITY.HIGH) ns.
Proof.
  intros H.
  rewrite (analyzeCategorySpending_reads b cs spent (fun c Hin Hs => proj1 (H c Hin Hs))).
  rewrite (detectBudgetOverspend_budgeted_reads b cs spent (fun c Hin Hs => proj2 (H c Hin Hs))).
  do 2 eexists. split; [reflexivity|]. split; [reflexivity|].
  clear H. induction cs as [|c cs [IH1 IH2]]; simpl; [split; reflexivity|].
  destruct (budgetSkipped c); simpl; [split; assumption|].
  unfold budgetNudge at 1 3.
  destruct (Qleb 100 (budgetPercentage c (spent (cat_id c)))) eqn:E100.
  - rewrite (Qleb_80_of_100 _ E100). simpl. rewrite E100, IH1, IH2. split; reflexivity.
  - destruct (Qleb 80 (budgetPercentage c (spent (cat_id c)))); simpl;
      rewrite ?E100, ?IH1, ?IH2; split; reflexivity.
Qed.

Lemma budget_alerts_match_budget_nudges_witness :
  exists alerts ns,
    analyzeCategorySpending alertBackend
      [sampleCategory "A" (Some 100%Q); sampleCategory "B" (Some 100%Q); sampleCategory "C" None]
    = Ok alerts /\
    detectBudgetOverspend alertBackend
      [sampleCategory "A" (Some 100%Q); sampleCategory "B" (Some 100%Q); sampleCategory "C" None]
    = Ok ns /\
    map alert_categoryId alerts = map nudgeCategoryId ns /\
    map overBudget alerts = map (fun n => String.eqb (priority n) NUDGE_PRIORITY.HIGH) ns.
Proof.
  apply (budget_alerts_match_budget_nudges alertBackend _
           (fun k => if String.eqb k "A" then 90%Q else 120%Q)).
  intros c Hin _. simpl in Hin.
  destruct Hin as [<-|[<-|[<-|[]]]]; split; reflexivity.
Defined.

(** ** The prioritizer *)

Lemma nudge_le_trans (a b c : nudge) :
  nudge_le a b = true -> nudge_le b c = true -> nudge_le a c = true.
Proof. rewrite !nudge_le_spec. lia. Qed.

Lemma StronglySorted_app_rel {A} (R : A -> A -> Prop) (l1 l2 : list A) :
  StronglySorted R (l1 ++ l2) -> forall x y, In x l1 -> In y l2 -> R x y.
Proof.
  induction l1 as [|a l1 IH]; simpl; intros Hs x y Hx Hy; [destruct Hx|].
  apply StronglySorted_inv in Hs as [Hs Hall].
  destruct Hx as [<-|Hx].
  - rewrite Forall_forall in Hall. apply Hall. apply in_or_app. now right.
  - now apply IH.
Qed.

(** X3.  Keeping the first 5 prioritized nudges keeps the most urgent
    ones: the selection has min(5, n) entries, all taken from the input,
    and every dropped nudge has a priority rank no better than every kept
    one, and, at equal rank, an embedded timestamp no later.  A priority
    other than high and medium ranks like low. *)
Theorem selectNudges_keeps_most_urgent (l : list nudge) :
  List.length (selectNudges l) = Nat.min 5 (List.length l) /\
  incl (selectNudges l) l /\
  (forall x y, In x (selectNudges l) -> In y (skipn 5 (prioritizeNudges l)) ->
     priorityOrder (priority x) < priorityOrder (priority y) \/
     (priorityOrder (priority x) = priorityOrder (priority y) /\ id_ts y <= id_ts x)) /\
  (forall p, p <> NUDGE_PRIORITY.HIGH -> p <> NUDGE_PRIORITY.MEDIUM ->
     priorityOrder p = priorityOrder NUDGE_PRIORITY.LOW).
Proof.
  split; [|split; [|split]].
  - unfold selectNudges. rewrite length_firstn, (Permutation_length (prioritizeNudges_perm l)).
    reflexivity.
  - intros x Hx. unfold selectNudges in Hx. apply (Permutation_in _ (prioritizeNudges_perm l)).
    rewrite <- (firstn_skipn 5 (prioritizeNudges l)). apply in_or_app. now left.
  - intros x y Hx Hy. apply nudge_le_spec.
    assert (Hss : StronglySorted (fun a b => nudge_le a b = true) (prioritizeNudges l)).
    { apply Sorted_StronglySorted; [intros a b c; apply nudge_le_trans | apply prioritizeNudges_sorted]. }
    rewrite <- (firstn_skipn 5 (prioritizeNudges l)) in Hss.
    exact (StronglySorted_app_rel _ _ _ Hss x y Hx Hy).
  - intros p Hh Hm. unfold priorityOrder.
    destruct (String.eqb_spec p NUDGE_PRIORITY.HIGH); [contradiction|].
    destruct (String.eqb_spec p NUDGE_PRIORITY.MEDIUM); [contradiction|]. reflexivity.
Qed.

(** ** The category-pattern detector *)

Lemma filter_flat_map_category (P : nudge -> bool) (now : Z) (cats : list category) (k : string)
  (g : list (string * list expense)) :
  (forall n, P n = true -> nudgeCategoryId n = k) ->
  NoDup (map fst g) ->
  filter P (flat_map (categoryPatternNudges now cats) g)
  = filter P (categoryPatternNudges now cats (k, groupLookup k g)).
Proof.
  intros HP. induction g as [|[k' l] g IH]; cbn [flat_map groupLookup]; intros Hnd.
  - now rewrite categoryPatternNudges_nil.
  - inversion Hnd as [|? ? Hnin Hnd']; subst.
    rewrite filter_app, IH by exact Hnd'.
    destruct (String.eqb_spec k' k) as [->|Hne].
    + assert (Hlk : groupLookup k g = []).
      { clear - Hnin. induction g as [|[k'' l''] g IH]; simpl in *; [reflexivity|].
        destruct (String.eqb_spec k'' k) as [->|]; [exfalso; apply Hnin; now left|].
        apply IH. intros H. apply Hnin. now right. }
      rewrite Hlk, categoryPatternNudges_nil. simpl. apply app_nil_r.
    + assert (Hnone : filter P (categoryPatternNudges now cats (k', l)) = []).
      { apply filter_none. intros n Hin.
        apply categoryPatternNudges_categoryId in Hin.
        destruct (P n) eqn:EP; [|reflexivity].
        apply HP in EP. congruence. }
      now rewrite Hnone.
Qed.

(** X4.  For a category among the gathered ones, the category-pattern
    detector emits exactly one [small_purchases] nudge (type
    category_pattern, priority medium, actionable) for it iff at least 10
    of the category's expenses in the window are below 200; its metadata
    [count] is the number of those expenses and [totalAmount] their sum
    rounded to 2 decimals.  With fewer than 10 it emits none. *)
Theorem detectCategoryPatterns_small_purchases (now : Z) (es : list expense)
  (cats : list category) (k : string) (c : category) :
  find (fun c => String.eqb (cat_id c) k) cats = Some c ->
  let small := filter (fun e => Qltb (amount e) 200)
                      (filter (fun e => String.eqb (categoryId e) k) es) in
  ((exists n, filter (isSmallFor k) (detectCategoryPatterns now es cats) = [n] /\
              type n = NUDGE_TYPES.CATEGORY_PATTERN /\
              priority n = NUDGE_PRIORITY.MEDIUM /\ actionable n = true /\
              metaLookup "count" (metadata n)
                = Some (MNum (inject_Z (Z.of_nat (List.length small)))) /\
              metaLookup "totalAmount" (metadata n)
                = Some (MNum (toFixed 2 (sumQ (map amount small)))))
   <-> (10 <= List.length small)%nat) /\
  ((List.length small < 10)%nat ->
   filter (isSmallFor k) (detectCategoryPatterns now es cats) = []).
Proof.
  intros Hfind small.
  destruct (groupByCategory_spec es) as [Hnd Hlk].
  assert (Hs : filter (isSmallFor k) (detectCategoryPatterns now es cats)
               = smallPurchaseNudge now k c (filter (fun e => String.eqb (categoryId e) k) es)).
  { unfold detectCategoryPatterns.
    rewrite (filter_flat_map_category (isSmallFor k) now cats k) by
      (try exact Hnd; intros n Hn; unfold isSmallFor in Hn;
       apply andb_prop in Hn as [_ Hn]; now apply String.eqb_eq).
    rewrite Hlk. unfold categoryPatternNudges. rewrite Hfind, filter_app.
    unfold smallPurchaseNudge, spikeNudge.
    repeat match goal with |- context [if ?t then _ else _] => destruct t end;
      simpl; unfold isSmallFor, nudgeCategoryId; simpl; rewrite ?String.eqb_refl;
      reflexivity. }
  rewrite Hs. unfold smallPurchaseNudge. fold small.
  split.
  - split.
    + intros (n & Hn & _). destruct (Nat.leb 10 (List.length small)) eqn:E; [|discriminate].
      now apply Nat.leb_le.
    + intros H10. apply Nat.leb_le in H10. rewrite H10. eexists; repeat split.
  - intros Hlt. destruct (Nat.leb 10 (List.length small)) eqn:E; [|reflexivity].
    apply Nat.leb_le in E. lia.
Qed.

Lemma detectCategoryPatterns_small_purchases_witness :
  exists n,
    filter (isSmallFor "A")
      (detectCategoryPatterns 1700000000000
         (repeat {| amount := 150; day_of_week := 2; categoryId := "A" |} 10)
         [sampleCategory "A" None]) = [n] /\
    type n = NUDGE_TYPES.CATEGORY_PATTERN /\ priority n = NUDGE_PRIORITY.MEDIUM /\
    actionable n = true /\
    metaLookup "count" (metadata n) = Some (MNum (inject_Z 10)) /\
    metaLookup "totalAmount" (metadata n) = Some (MNum (toFixed 2 1500)).
Proof.
  destruct (detectCategoryPatterns_small_purchases 1700000000000
              (repeat {| amount := 150; day_of_week := 2; categoryId := "A" |} 10)
              [sampleCategory "A" None] "A" (sampleCategory "A" None) eq_refl)
    as [[_ Hiff] _].
  destruct Hiff as (n & Hn & Ht & Hp & Ha & Hc & Hsum);
    [apply Nat.leb_le; vm_compute; reflexivity|].
  exists n. repeat split; assumption.
Defined.

Lemma groupLookup_In (k : string) (l : list expense) (g : list (string * list expense)) :
  NoDup (map fst g) -> In (k, l) g -> groupLookup k g = l.
Proof.
  induction g as [|[k' l'] g IH]; simpl; intros Hnd Hin; [destruct Hin|].
  inversion Hnd as [|? ? Hnin Hnd']; subst.
  destruct Hin as [Heq|Hin].
  - injection Heq as -> ->. now rewrite String.eqb_refl.
  - destruct (String.eqb_spec k' k) as [->|]; [|now apply IH].
    exfalso. apply Hnin. apply (in_map fst) in Hin. exact Hin.
Qed.

Lemma categoryPatternNudges_length (now : Z) (cats : list category) (entry : string * list expense) :
  (List.length (categoryPatternNudges now cats entry) <= 2)%nat.
Proof.
  destruct entry as [k l]. unfold categoryPatternNudges.
  destruct (find _ cats); simpl; [|lia].
  rewrite length_app. unfold smallPurchaseNudge, spikeNudge.
  repeat match goal with |- context [if ?t then _ else _] => destruct t end; simpl; lia.
Qed.

Lemma length_filter_le {A} (f : A -> bool) (l : list A) :
  (List.length (filter f l) <= List.length l)%nat.
Proof. induction l as [|x l IH]; simpl; [lia|]. destruct (f x); simpl; lia. Qed.

(** X5.  Every nudge of the category-pattern detector has type
    category_pattern, priority medium and is actionable; it is about a
    category that is among the gathered categories (whose name it
    carries) and that has at least one expense in the window; and no
    category gets more than two such nudges. *)
Theorem detectCategoryPatterns_scope (now : Z) (es : list expense) (cats : list category) :
  (forall n, In n (detectCategoryPatterns now es cats) ->
     type n = NUDGE_TYPES.CATEGORY_PATTERN /\ priority n = NUDGE_PRIORITY.MEDIUM /\
     actionable n = true /\
     (exists c, find (fun c => String.eqb (cat_id c) (nudgeCategoryId n)) cats = Some c /\
                categoryNameOf n = Some (cat_name c)) /\
     (exists e, In e es /\ categoryId e = nudgeCategoryId n)) /\
  (forall k, (List.length (filter (fun n => String.eqb (nudgeCategoryId n) k)
                                  (detectCategoryPatterns now es cats)) <= 2)%nat).
Proof.
  destruct (groupByCategory_spec es) as [Hnd Hlk].
  split.
  - intros n Hin. unfold detectCategoryPatterns in Hin.
    apply in_flat_map in Hin as ([k l] & Hg & Hn).
    assert (Hk := categoryPatternNudges_categoryId _ _ _ _ _ Hn).
    assert (Hl : l = filter (fun e => String.eqb (categoryId e) k) es)
      by (rewrite <- Hlk; symmetry; now apply groupLookup_In).
    rewrite Hk.
    assert (Hex : exists e, In e es /\ categoryId e = k).
    { destruct l as [|e l']; [rewrite categoryPatternNudges_nil in Hn; destruct Hn|].
      assert (He : In e (filter (fun e => String.eqb (categoryId e) k) es))
        by (rewrite <- Hl; now left).
      apply filter_In in He as [He Hek]. apply String.eqb_eq in Hek. now exists e. }
    unfold categoryPatternNudges in Hn.
    destruct (find (fun c => String.eqb (cat_id c) k) cats) as [c|] eqn:Hf; [|destruct Hn].
    unfold smallPurchaseNudge, spikeNudge in Hn.
    apply in_app_or in Hn as [Hn|Hn];
      repeat match goal with H : context [if ?t then _ else _] |- _ => destruct t end;
      simpl in Hn; try contradiction; destruct Hn as [<-|[]];
      (split; [reflexivity|]; split; [reflexivity|]; split; [reflexivity|];
       split; [exists c; split; reflexivity | exact Hex]).
  - intros k. unfold detectCategoryPatterns.
    rewrite (filter_flat_map_category (fun n => String.eqb (nudgeCategoryId n) k) now cats k)
      by (try exact Hnd; intros n Hn; now apply String.eqb_eq).
    eapply Nat.le_trans; [apply length_filter_le | apply categoryPatternNudges_length].
Qed.

(** ** Analysis windows *)

(** X6.  For a window [startDate <= endDate], [diffDays] is the number of
    whole days in [endDate - startDate]; the previous window built from
    it spans one day fewer than that (its end minus its start is
    [(d - 1)] days), it ends a full day before [startDate], and an
    expense dated strictly within the day before [startDate] is counted
    in neither window. *)
Theorem previousWindow_shape (s e : Z) :
  s <= e ->
  let d := diffDays e s in
  let '(ps, pe) := previousWindow s e in
  d * DAY <= e - s < (d + 1) * DAY /\
  pe - ps = (d - 1) * DAY /\
  pe + DAY = s /\
  (forall userId doc, s - DAY < doc_date doc < s ->
     matchesWindow userId s e doc = false /\ matchesWindow userId ps pe doc = false).
Proof.
  intros Hle. unfold previousWindow, diffDays. cbv beta iota zeta.
  rewrite Z.quot_div_nonneg by (unfold DAY; lia).
  pose proof (Z.div_mod (e - s) DAY ltac:(unfold DAY; lia)) as Hdm.
  pose proof (Z.mod_pos_bound (e - s) DAY ltac:(unfold DAY; lia)) as Hb.
  split; [lia|]. split; [lia|]. split; [lia|].
  intros userId doc Hd. unfold matchesWindow.
  rewrite (proj2 (Z.leb_gt s (doc_date doc))) by lia.
  rewrite (proj2 (Z.leb_gt (doc_date doc) (s - DAY))) by lia.
  rewrite !andb_false_r. split; reflexivity.
Qed.

Lemma previousWindow_shape_witness :
  0 <= DAY + 5 /\
  let d := diffDays (DAY + 5) 0 in
  let '(ps, pe) := previousWindow 0 (DAY + 5) in
  d * DAY <= DAY + 5 - 0 < (d + 1) * DAY /\
  pe - ps = (d - 1) * DAY /\
  pe + DAY = 0 /\
  (forall userId doc, 0 - DAY < doc_date doc < 0 ->
     matchesWindow userId 0 (DAY + 5) doc = false /\ matchesWindow userId ps pe doc = false).
Proof.
  split; [unfold DAY; lia | apply (previousWindow_shape 0 (DAY + 5)); unfold DAY; lia].
Defined.

(** X7.  The default analysis window (no dates given) runs from the start
    of the day 30 days ago to the end of today: 31 days, for which
    [diffDays] is 30; the previous window it is compared against then
    covers 29 days and 1 millisecond, ending one day before the current
    window starts. *)
Theorem defaultWindow_lengths (now : Z) :
  let '(s, e) := defaultWindow now in
  let '(ps, pe) := previousWindow s e in
  s = startOfDay now - 30 * DAY /\
  diffDays e s = 30 /\
  e - s + 1 = 31 * DAY /\
  pe - ps + 1 = 29 * DAY + 1 /\
  pe + DAY = s.
Proof.
  unfold defaultWindow, previousWindow, endOfDay, startOfDay, diffDays.
  assert (Hm : (now - 30 * DAY) mod DAY = now mod DAY).
  { replace (now - 30 * DAY) with (now + (-30) * DAY) by lia.
    apply Z.mod_add. unfold DAY; lia. }
  rewrite Hm.
  assert (Hq : Z.quot (now - now mod DAY + DAY - 1 - (now - 30 * DAY - now mod DAY)) DAY = 30).
  { replace (now - now mod DAY + DAY - 1 - (now - 30 * DAY - now mod DAY))
      with (31 * DAY - 1) by lia.
    vm_compute. reflexivity. }
  cbv beta iota zeta. rewrite Hq. unfold DAY. lia.
Qed.

Lemma windowTotals_previous_empty (store : list expenseDoc) (userId : string) (s e : Z) :
  s <= e < s + DAY -> windowTotals store userId s e false = Ok 0%Q.
Proof.
  intros H. unfold windowTotals, previousWindow, diffDays.
  rewrite Z.quot_small by lia. cbv beta iota zeta.
  unfold getTotalSpendingIn.
  rewrite filter_none; [reflexivity|].
  intros d _. unfold matchesWindow.
  destruct (Z.leb_spec (s - 0 * DAY) (doc_date d));
    destruct (Z.leb_spec (doc_date d) (s - DAY)); rewrite ?andb_false_r; try reflexivity.
  unfold DAY in *. lia.
Qed.

(** X8.  When the trend reads come from an expense collection and the
    window is shorter than a day ([startDate <= endDate < startDate +
    DAY], e.g. the same date given as start and end), [diffDays] is 0, so
    the previous window ends before it starts and its total is 0
    whatever the collection holds: no spending-trend nudge is emitted,
    and the reported trend is [stable], not increasing, with a change of
    0 and a previous total of 0. *)
Theorem shortWindow_trend_stable (b : backend) (store : list expenseDoc) (userId : string)
  (s e : Z) :
  s <= e < s + DAY ->
  getTotalSpending b = windowTotals store userId s e ->
  analyzeSpendingTrendsForNudge b = Ok None /\
  exists sp, analyzeSpendingTrends b = Ok sp /\
    sp_trend sp = stable /\ isIncreasing sp = false /\
    (sp_changePercentage sp == 0)%Q /\ (previousPeriod sp == 0)%Q /\
    currentPeriod sp = toFixed 2 (getTotalSpendingIn store userId s e).
Proof.
  intros Hw Ht. pose proof (windowTotals_previous_empty store userId s e Hw) as Hp.
  split.
  - unfold analyzeSpendingTrendsForNudge. rewrite Ht, Hp. reflexivity.
  - unfold analyzeSpendingTrends. rewrite Ht, Hp.
    eexists. split; [reflexivity|].
    split; [reflexivity|]. split; [reflexivity|].
    split; [vm_compute; reflexivity|]. split; [vm_compute; reflexivity|]. reflexivity.
Qed.

Lemma shortWindow_trend_stable_witness :
  (20 * DAY <= 20 * DAY < 20 * DAY + DAY) /\
  getTotalSpending sameDayBackend = windowTotals sampleStore "u1" (20 * DAY) (20 * DAY) /\
  (analyzeSpendingTrendsForNudge sameDayBackend = Ok None /\
   exists sp, analyzeSpendingTrends sameDayBackend = Ok sp /\
     sp_trend sp = stable /\ isIncreasing sp = false /\
     (sp_changePercentage sp == 0)%Q /\ (previousPeriod sp == 0)%Q /\
     currentPeriod sp = toFixed 2 (getTotalSpendingIn sampleStore "u1" (20 * DAY) (20 * DAY))).
Proof.
  split; [unfold DAY; lia|]. split; [reflexivity|].
  apply (shortWindow_trend_stable sameDayBackend sampleStore "u1" (20 * DAY) (20 * DAY));
    [unfold DAY; lia | reflexivity].
Defined.

(** ** The budget health score *)

Lemma classifyCategories_length (ms : string -> result Q) (cs : list category)
  (classes : list healthClass) :
  classifyCategories ms cs = Ok classes -> List.length classes = List.length cs.
Proof.
  revert classes. induction cs as [|c cs IH]; simpl; intros classes H.
  - now injection H as <-.
  - destruct (ms (cat_id c)); simpl in H; [|discriminate].
    destruct (classifyCategories ms cs) as [rest|]; simpl in H; [|discriminate].
    injection H as <-. simpl. now rewrite (IH rest eq_refl).
Qed.

Lemma classifyCategories_fails (ms : string -> result Q) (cs : list category)
  (c : category) (e : error) :
  In c cs -> ms (cat_id c) = Err e -> exists e', classifyCategories ms cs = Err e'.
Proof.
  induction cs as [|c0 cs IH]; simpl; intros Hin He; [destruct Hin|].
  destruct Hin as [<-|Hin].
  - rewrite He. now exists e.
  - destruct (ms (cat_id c0)) as [x|e0]; simpl; [|now exists e0].
    destruct (IH Hin He) as [e1 ->]. now exists e1.
Qed.

Lemma countClass_total (l : list healthClass) :
  (countClass onTrack l + countClass warningClass l + countClass overClass l
   = List.length l)%nat.
Proof.
  unfold countClass. induction l as [|h l IH]; simpl; [reflexivity|].
  destruct h; simpl; lia.
Qed.

Lemma fold_scores (l : list healthClass) (a : Z) :
  fold_left Z.add (map categoryScore l) a
  = a + 100 * Z.of_nat (countClass onTrack l) + 60 * Z.of_nat (countClass warningClass l)
      + 20 * Z.of_nat (countClass overClass l).
Proof.
  unfold countClass. revert a. induction l as [|h l IH]; intros a; [simpl; lia|].
  cbn [fold_left map]. rewrite IH.
  destruct h; cbn [healthClass_eqb categoryScore filter List.length]; lia.
Qed.

Lemma mathRound_between (lo hi : Z) (q : Q) :
  (inject_Z lo <= q + (1 # 2))%Q -> (q + (1 # 2) < inject_Z hi + 1)%Q ->
  lo <= mathRound q <= hi.
Proof.
  intros H1 H2. unfold mathRound. split.
  - rewrite <- (Qfloor_Z lo). apply Qfloor_resp_le. exact H1.
  - assert (H3 := Qfloor_le (q + (1 # 2))).
    assert (H4 : (inject_Z (Qfloor (q + (1 # 2))) < inject_Z (hi + 1))%Q)
      by (rewrite inject_Z_plus; change (inject_Z 1) with 1%Q; lra).
    rewrite <- Zlt_Qlt in H4. lia.
Qed.

Lemma mathRound_average (lo hi T n : Z) :
  0 < n -> 2 * lo * n <= 2 * T + n -> T <= hi * n ->
  lo <= mathRound (inject_Z T / inject_Z n) <= hi.
Proof.
  intros Hn H1 H2.
  assert (Hn' : (0 < inject_Z n)%Q)
    by (change 0%Q with (inject_Z 0); rewrite <- Zlt_Qlt; exact Hn).
  apply mathRound_between.
  - assert (A : (inject_Z lo - (1 # 2) <= inject_Z T / inject_Z n)%Q).
    { apply Qle_shift_div_l; [exact Hn'|].
      unfold Qle, Qminus, Qplus, Qopp, Qmult, inject_Z; cbn [Qnum Qden Pos.mul]. nia. }
    lra.
  - assert (A : (inject_Z T / inject_Z n <= inject_Z hi)%Q).
    { apply Qle_shift_div_r; [exact Hn'|]. rewrite <- inject_Z_mult, <- Zle_Qle. lia. }
    lra.
Qed.

(** X9.  When the user has budgeted categories (active, with a positive
    monthly budget) and every spending read succeeds, the health score
    is an integer between 20 and 100 whose grade follows it; the three
    counts add up to the number of budgeted categories; all on track
    gives 100 (A+) and all over budget gives 20 (D).  A score of 100
    does not mean all are on track: with 80 or more categories of which
    exactly one is in the warning band, the rounded average is still
    100. *)
Theorem getBudgetHealthScore_range (all : list category) (userId : string)
  (monthSpending : string -> result Q) (classes : list healthClass) :
  budgetedCategories all userId <> [] ->
  classifyCategories monthSpending (budgetedCategories all userId) = Ok classes ->
  exists r, getBudgetHealthScore (Ok all) userId monthSpending = Ok r /\
    totalCategories r = List.length (budgetedCategories all userId) /\
    (onTrackCategories r + warningCategories r + overBudgetCategories r
     = totalCategories r)%nat /\
    20 <= score r <= 100 /\
    grade r = gradeOf (score r) /\
    (onTrackCategories r = totalCategories r -> score r = 100 /\ grade r = "A+") /\
    (overBudgetCategories r = totalCategories r -> score r = 20 /\ grade r = "D") /\
    (warningCategories r = 1%nat -> onTrackCategories r = (totalCategories r - 1)%nat ->
     (80 <= totalCategories r)%nat -> score r = 100 /\ grade r = "A+").
Proof.
  intros Hne Hc. unfold getBudgetHealthScore. simpl bind.
  destruct (budgetedCategories all userId) as [|c0 cs0] eqn:Eb; [contradiction|].
  set (cs := c0 :: cs0) in *. clearbody cs.
  assert (Hlen := classifyCategories_length _ _ _ Hc).
  assert (Hn : Nat.eqb (List.length cs) 0 = false)
    by (apply Nat.eqb_neq; intros H; apply Hne; now apply length_zero_iff_nil).
  rewrite Hn, Hc. simpl bind. eexists. split; [reflexivity|]. cbn [score grade totalCategories
    onTrackCategories warningCategories overBudgetCategories].
  rewrite fold_scores. rewrite <- Hlen in *.
  pose proof (countClass_total classes) as Htot.
  assert (Hpos : (0 < List.length classes)%nat)
    by (destruct classes; [apply Nat.eqb_neq in Hn; simpl in Hn; lia | simpl; lia]).
  set (on := countClass onTrack classes) in *.
  set (wa := countClass warningClass classes) in *.
  set (ov := countClass overClass classes) in *.
  set (n := List.length classes) in *.
  set (T := 0 + 100 * Z.of_nat on + 60 * Z.of_nat wa + 20 * Z.of_nat ov).
  assert (Hbounds : 20 <= mathRound (inject_Z T / inject_Z (Z.of_nat n)) <= 100)
    by (apply mathRound_average; unfold T; lia).
  split; [reflexivity|]. split; [exact Htot|]. split; [exact Hbounds|].
  split; [reflexivity|].
  split; [|split].
  - intros Hon.
    assert (Hr : mathRound (inject_Z T / inject_Z (Z.of_nat n)) = 100).
    { enough (100 <= mathRound (inject_Z T / inject_Z (Z.of_nat n)) <= 100) by lia.
      apply mathRound_average; unfold T; lia. }
    rewrite Hr. split; reflexivity.
  - intros Hov.
    assert (Hr : mathRound (inject_Z T / inject_Z (Z.of_nat n)) = 20).
    { enough (20 <= mathRound (inject_Z T / inject_Z (Z.of_nat n)) <= 20) by lia.
      apply mathRound_average; unfold T; lia. }
    rewrite Hr. split; reflexivity.
  - intros Hwa Hon H80.
    assert (Hr : mathRound (inject_Z T / inject_Z (Z.of_nat n)) = 100).
    { enough (100 <= mathRound (inject_Z T / inject_Z (Z.of_nat n)) <= 100) by lia.
      apply mathRound_average; unfold T; lia. }
    rewrite Hr. split; reflexivity.
Qed.

Lemma getBudgetHealthScore_range_witness :
  budgetedCategories [sampleCategory "A" (Some 100%Q); sampleCategory "B" (Some 100%Q);
                      sampleCategory "C" (Some 100%Q); sampleCategory "D" None] "u1" <> [] /\
  classifyCategories healthSpending
    (budgetedCategories [sampleCategory "A" (Some 100%Q); sampleCategory "B" (Some 100%Q);
                         sampleCategory "C" (Some 100%Q); sampleCategory "D" None] "u1")
  = Ok [onTrack; warningClass; overClass] /\
  exists r, getBudgetHealthScore
              (Ok [sampleCategory "A" (Some 100%Q); sampleCategory "B" (Some 100%Q);
                   sampleCategory "C" (Some 100%Q); sampleCategory "D" None]) "u1" healthSpending
            = Ok r /\ 20 <= score r <= 100 /\ grade r = gradeOf (score r).
Proof.
  split; [vm_compute; discriminate|]. split; [vm_compute; reflexivity|].
  destruct (getBudgetHealthScore_range
              [sampleCategory "A" (Some 100%Q); sampleCategory "B" (Some 100%Q);
               sampleCategory "C" (Some 100%Q); sampleCategory "D" None] "u1" healthSpending
              [onTrack; warningClass; overClass])
    as (r & Hr & _ & _ & Hs & Hg & _); [vm_compute; discriminate | vm_compute; reflexivity |].
  exists r. split; [exact Hr|]. split; assumption.
Defined.

(** X10.  Edge behaviour of the health score: a failing category query
    fails the request with that error; with no budgeted category the
    score is 0 with grade N/A and all counts 0, whatever the spending
    reads would give (none is made); and a failing spending read for any
    budgeted category fails the request. *)
Theorem getBudgetHealthScore_edges (collection : result (list category)) (userId : string)
  (monthSpending : string -> result Q) :
  (forall e, collection = Err e -> getBudgetHealthScore collection userId monthSpending = Err e) /\
  (forall all, collection = Ok all -> budgetedCategories all userId = [] ->
     getBudgetHealthScore collection userId monthSpending
     = Ok {| score := 0; grade := "N/A"; totalCategories := 0; onTrackCategories := 0;
             warningCategories := 0; overBudgetCategories := 0 |}) /\
  (forall all c e, collection = Ok all -> In c (budgetedCategories all userId) ->
     monthSpending (cat_id c) = Err e ->
     exists e', getBudgetHealthScore collection userId monthSpending = Err e').
Proof.
  split; [|split].
  - intros e ->. reflexivity.
  - intros all -> Hb. unfold getBudgetHealthScore. simpl bind. rewrite Hb. reflexivity.
  - intros all c e -> Hin He. unfold getBudgetHealthScore. simpl bind.
    destruct (classifyCategories_fails monthSpending _ c e Hin He) as [e' He'].
    destruct (budgetedCategories all userId) as [|c0 cs] eqn:Eb; [destruct Hin|].
    cbn [List.length Nat.eqb]. rewrite He'. now exists e'.
Qed.

(** X11.  The health score's classes and the budget detector's bands
    agree except on their boundaries: below 80% a category is on track
    and gets no budget nudge; strictly between 80% and 100% it is in the
    warning class and gets a medium budget nudge; above 100% it is over
    budget and gets a high one.  At exactly 80% it is still on track but
    already gets a medium warning, and at exactly 100% it is still in the
    warning class but gets a high overage nudge. *)
Theorem health_classes_vs_budget_bands (now remainingDays : Z) (c : category) (spent : Q) :
  let p := budgetPercentage c spent in
  ((p < 80)%Q -> classifyHealth p = onTrack /\ budgetNudge now remainingDays c spent = []) /\
  ((80 < p < 100)%Q -> classifyHealth p = warningClass /\
     exists n, budgetNudge now remainingDays c spent = [n] /\ priority n = NUDGE_PRIORITY.MEDIUM) /\
  ((100 < p)%Q -> classifyHealth p = overClass /\
     exists n, budgetNudge now remainingDays c spent = [n] /\ priority n = NUDGE_PRIORITY.HIGH) /\
  ((p == 80)%Q -> classifyHealth p = onTrack /\
     exists n, budgetNudge now remainingDays c spent = [n] /\ priority n = NUDGE_PRIORITY.MEDIUM) /\
  ((p == 100)%Q -> classifyHealth p = warningClass /\
     exists n, budgetNudge now remainingDays c spent = [n] /\ priority n = NUDGE_PRIORITY.HIGH).
Proof.
  cbv zeta. unfold classifyHealth, budgetNudge. cbv zeta.
  set (p := budgetPercentage c spent).
  split; [|split; [|split; [|split]]]; intros Hp;
    repeat match goal with
           | |- context [Qleb ?x ?y] =>
               let E := fresh "E" in
               destruct (Qleb x y) eqn:E; [apply Qleb_true in E | apply Qleb_false in E]
           end;
    try lra; split; try reflexivity; eexists; split; reflexivity.
Qed.

(** ** The financial-tips endpoint *)

Lemma financialTips_selected (category : option string) (ns : list nudge) (n : nudge) :
  In n (match category with
        | Some q => if String.eqb q "" then filter actionable ns
                    else filter (matchesCategory q) (filter actionable ns)
        | None => filter actionable ns
        end) ->
  In n ns /\ actionable n = true /\
  (forall q, category = Some q -> q <> "" -> matchesCategory q n = true).
Proof.
  intros Hn. destruct category as [q|]; [destruct (String.eqb_spec q "") as [->|Hne]|].
  - apply filter_In in Hn as [Hn Ha]. split; [exact Hn|]. split; [exact Ha|].
    intros q' Hq' Hne. injection Hq' as <-. contradiction.
  - apply filter_In in Hn as [Hn Hm]. apply filter_In in Hn as [Hn Ha].
    split; [exact Hn|]. split; [exact Ha|]. intros q' Hq' _. injection Hq' as <-. exact Hm.
  - apply filter_In in Hn as [Hn Ha]. split; [exact Hn|]. split; [exact Ha|]. discriminate.
Qed.

Lemma financialTips_selected_length (category : option string) (ns : list nudge) :
  (List.length (match category with
                | Some q => if String.eqb q "" then filter actionable ns
                            else filter (matchesCategory q) (filter actionable ns)
                | None => filter actionable ns
                end) <= List.length ns)%nat.
Proof.
  destruct category as [q|]; [destruct (String.eqb q "")|]; try apply length_filter_le.
  eapply Nat.le_trans; apply length_filter_le.
Qed.

(** X12.  When the insights are generated, the tips endpoint answers
    with at most 5 tips, [totalTips] their number and [highPriorityCount]
    at most that.  Every tip is the formatted form of an actionable nudge
    of the insights, marked actionable, with a non-empty category label
    ("General" when the nudge names no category); with a non-empty
    category filter, that nudge carries a category name which, lowered
    to lower case, contains the lowered filter.  Without a filter (absent
    or empty) the tips are all actionable nudges, in order. *)
Theorem getFinancialTips_spec (b : backend) (userId : string) (category : option string)
  (r : insights) :
  generateInsights b userId = Ok r ->
  exists t, getFinancialTips b userId category = Ok t /\
    totalTips t = List.length (tips t) /\
    (totalTips t <= 5)%nat /\
    (highPriorityCount t <= totalTips t)%nat /\
    (forall x, In x (tips t) ->
       tip_actionable x = true /\ tip_category x <> "" /\
       exists n, In n (nudges r) /\ actionable n = true /\ x = formatTip n /\
         (forall q, category = Some q -> q <> "" ->
            exists s, categoryNameOf n = Some s /\
                      includes (toLowerCase s) (toLowerCase q) = true)) /\
    ((category = None \/ category = Some "") ->
     tips t = map formatTip (filter actionable (nudges r))).
Proof.
  intros H.
  assert (H5 : (List.length (nudges r) <= 5)%nat).
  { apply generateInsights_Ok in H as (ex & cs & u & _ & _ & _ & Hn).
    rewrite Hn. unfold selectNudges. rewrite length_firstn. lia. }
  unfold getFinancialTips. rewrite H. cbn [bind]. eexists. split; [reflexivity|].
  unfold financialTips. cbv zeta. cbn [tips totalTips highPriorityCount].
  pose proof (financialTips_selected_length category (nudges r)) as Hlen.
  split; [reflexivity|].
  split; [rewrite length_map; lia|].
  split; [apply length_filter_le|].
  split.
  - intros x Hx. apply in_map_iff in Hx as (n & <- & Hn).
    apply financialTips_selected in Hn as (Hin & Ha & Hm).
    split; [reflexivity|]. split.
    + unfold formatTip. cbn [tip_category].
      destruct (categoryNameOf n) as [s|]; [|discriminate].
      destruct (String.eqb_spec s ""); [discriminate | assumption].
    + exists n. split; [exact Hin|]. split; [exact Ha|]. split; [reflexivity|].
      intros q Hq Hne. specialize (Hm q Hq Hne). unfold matchesCategory in Hm.
      destruct (categoryNameOf n) as [s|]; [|discriminate]. now exists s.
  - intros [-> | ->]; reflexivity.
Qed.

Lemma getFinancialTips_spec_witness :
  exists r t, generateInsights twoWarningsBackend "u1" = Ok r /\
    getFinancialTips twoWarningsBackend "u1" (Some "a") = Ok t /\
    (totalTips t <= 5)%nat /\ (highPriorityCount t <= totalTips t)%nat.
Proof.
  destruct (generateInsights twoWarningsBackend "u1") as [r|e] eqn:E.
  - destruct (getFinancialTips_spec twoWarningsBackend "u1" (Some "a") r E)
      as (t & Ht & _ & H5 & Hh & _).
    exists r, t. split; [reflexivity|]. split; [exact Ht|]. split; assumption.
  - vm_compute in E. discriminate.
Defined.

(** ** The export service *)

Lemma supportedFormat_cases (format : string) :
  supportedFormat format = true ->
  format = EXPORT_FORMATS.CSV \/ format = EXPORT_FORMATS.PDF \/ format = EXPORT_FORMATS.JSON.
Proof.
  unfold supportedFormat, EXPORT_FORMATS.all. cbn [existsb].
  destruct (String.eqb_spec format EXPORT_FORMATS.CSV); [auto|].
  destruct (String.eqb_spec format EXPORT_FORMATS.PDF); [auto|].
  destruct (String.eqb_spec format EXPORT_FORMATS.JSON); [auto|].
  intros H. discriminate H.
Qed.

(** X13.  [exportExpenses] checks the format before it reads anything:
    an unsupported format throws "Unsupported export format: <format>"
    whatever the store holds.  For a supported format, a failing read is
    rethrown and an empty result throws "No expenses found in the
    specified date range" (the "not implemented" branch is never
    reached).  Otherwise a CSV or JSON export always throws the
    ReferenceError "moment is not defined", whatever the file system
    would do, as [moment] is not in scope in [exportToCSV] and
    [exportToJSON]; a PDF export writes [expenses_<start>_to_<end>.pdf],
    rethrows a failing write, and on success yields that file name, the
    format pdf, the size written, one record per expense and no summary
    data. *)
Theorem exportExpenses_outcomes (query : outcome (list exportDoc)) (startStr endStr format : string)
  (writeFile : string -> outcome Z) :
  (supportedFormat format = false ->
     exportExpenses query startStr endStr format writeFile
     = Thrown ("Unsupported export format: " ++ format)) /\
  (supportedFormat format = true -> forall m, query = Thrown m ->
     exportExpenses query startStr endStr format writeFile = Thrown m) /\
  (supportedFormat format = true -> query = Done [] ->
     exportExpenses query startStr endStr format writeFile
     = Thrown "No expenses found in the specified date range") /\
  (forall docs, query = Done docs -> docs <> [] ->
     (format = EXPORT_FORMATS.CSV \/ format = EXPORT_FORMATS.JSON) ->
     exportExpenses query startStr endStr format writeFile = Thrown momentNotDefined) /\
  (forall docs, query = Done docs -> docs <> [] -> format = EXPORT_FORMATS.PDF ->
     match writeFile (exportFilename startStr endStr "pdf") with
     | Thrown m => exportExpenses query startStr endStr format writeFile = Thrown m
     | Done sz =>
         exportExpenses query startStr endStr format writeFile
         = Done {| filename := exportFilename startStr endStr "pdf";
                   ex_format := EXPORT_FORMATS.PDF;
                   size := sz;
                   recordCount := List.length docs;
                   ex_data := None |}
     end).
Proof.
  unfold exportExpenses.
  split; [intros Hs; rewrite Hs; reflexivity|].
  split; [intros Hs m ->; rewrite Hs; reflexivity|].
  split; [intros Hs ->; rewrite Hs; reflexivity|].
  split.
  - intros docs -> Hne Hf.
    destruct docs as [|d docs]; [contradiction|]. cbn [map List.length Nat.eqb].
    destruct Hf as [-> | ->]; reflexivity.
  - intros docs -> Hne ->.
    destruct docs as [|d docs]; [contradiction|]. cbn [map List.length Nat.eqb].
    cbn - [exportFilename calculateExportSummary map]. unfold exportTo.
    cbn [negb]. destruct (writeFile _); cbn [List.length]; rewrite ?length_map; reflexivity.
Qed.

Lemma exportExpenses_Done (query : outcome (list exportDoc)) (startStr endStr format : string)
  (writeFile : string -> outcome Z) (r : exportResult) :
  exportExpenses query startStr endStr format writeFile = Done r ->
  filename r = exportFilename startStr endStr "pdf" /\ ex_format r = EXPORT_FORMATS.PDF.
Proof.
  unfold exportExpenses. destruct (supportedFormat format) eqn:Hs; [|discriminate].
  pose proof (supportedFormat_cases format Hs) as Hc. cbn [negb].
  destruct query as [docs|m]; [|discriminate].
  destruct (Nat.eqb (List.length (map exportRowOf docs)) 0); [discriminate|].
  destruct Hc as [-> | [-> | ->]]; cbn - [exportFilename calculateExportSummary map];
    unfold exportTo; cbn [negb]; try discriminate.
  destruct (writeFile _); intros H; [|discriminate].
  injection H as <-. split; reflexivity.
Qed.

(** *** [path.extname] of an export file name *)

Lemma list_ascii_of_string_app (s1 s2 : string) :
  list_ascii_of_string (s1 ++ s2) = (list_ascii_of_string s1 ++ list_ascii_of_string s2)%list.
Proof. induction s1 as [|c s1 IH]; simpl; [reflexivity|]. now rewrite IH. Qed.

Lemma extScan_cons (c : ascii) (cs : list ascii) (i : Z) (st : extState) :
  extScan (c :: cs) i st
  = if Ascii.eqb c "/"%char then
      if matchedSlash st then extScan cs (i - 1) st else setStartPart (i + 1) st
    else extScan cs (i - 1) (extStep c i st).
Proof. reflexivity. Qed.

Lemma extScan_app (l1 l2 : list ascii) (i : Z) (st : extState) :
  (forall c, In c l1 -> c <> "/"%char) ->
  extScan (l1 ++ l2) i st = extScan l2 (i - Z.of_nat (List.length l1)) (extScan l1 i st).
Proof.
  revert i st. induction l1 as [|c l1 IH]; intros i st H.
  - simpl. now rewrite Z.sub_0_r.
  - rewrite <- app_comm_cons, !extScan_cons. cbn [List.length].
    destruct (Ascii.eqb_spec c "/"%char) as [E|E];
      [exfalso; apply (H c); [left; reflexivity | exact E]|].
    rewrite IH by (intros y Hy; apply H; right; exact Hy). rewrite Nat2Z.inj_succ. f_equal. lia.
Qed.

Lemma extScan_idle (l : list ascii) (i : Z) (st : extState) :
  (forall c, In c l -> c <> "."%char /\ c <> "/"%char) ->
  startDot st = -1 -> endPos st <> -1 ->
  extScan l i st = st.
Proof.
  revert i. induction l as [|c l IH]; intros i H Hs He; [reflexivity|]. rewrite extScan_cons.
  destruct (H c (or_introl eq_refl)) as [Hd Hsl].
  destruct (Ascii.eqb_spec c "/"%char) as [|_]; [contradiction|].
  unfold extStep. cbv zeta. rewrite (proj2 (Z.eqb_neq _ _) He).
  destruct (Ascii.eqb_spec c "."%char) as [|_]; [contradiction|].
  rewrite Hs. cbn [Z.eqb negb]. apply IH; [intros y Hy; apply H; right; exact Hy | exact Hs | exact He].
Qed.

Lemma extScan_ext (x : ascii) (l : list ascii) (i : Z) :
  0 <= i ->
  (forall c, In c (x :: l) -> c <> "."%char /\ c <> "/"%char) ->
  extScan (x :: l) i extInit = setEnd (i + 1) extInit.
Proof.
  intros Hi H. destruct (H x (or_introl eq_refl)) as [Hd Hs].
  rewrite extScan_cons. destruct (Ascii.eqb_spec x "/"%char) as [|_]; [contradiction|].
  unfold extStep at 1. cbv zeta. cbn [endPos extInit Z.eqb].
  destruct (Ascii.eqb_spec x "."%char) as [|_]; [contradiction|].
  cbn [startDot setEnd extInit Z.eqb negb].
  apply extScan_idle; [intros c Hc; apply H; now right | reflexivity | simpl; lia].
Qed.

Lemma extStep_set (c : ascii) (i : Z) (st : extState) :
  startDot st <> -1 -> endPos st <> -1 ->
  startDot (extStep c i st) = startDot st /\ endPos (extStep c i st) = endPos st /\
  preDotState (extStep c i st) <> 0.
Proof.
  intros Hs He. unfold extStep. cbv zeta.
  rewrite (proj2 (Z.eqb_neq _ _) He), (proj2 (Z.eqb_neq _ _) Hs).
  destruct (Ascii.eqb c "."%char);
    [destruct (Z.eqb_spec (preDotState st) 1) as [Hp|Hp]|]; cbn [negb];
    simpl; (split; [reflexivity|split; [reflexivity|]]); try discriminate; lia.
Qed.

Lemma extScan_keeps (l : list ascii) (i : Z) (st : extState) :
  startDot st <> -1 -> endPos st <> -1 -> preDotState st <> 0 ->
  startDot (extScan l i st) = startDot st /\ endPos (extScan l i st) = endPos st /\
  preDotState (extScan l i st) <> 0.
Proof.
  revert i st. induction l as [|c l IH]; intros i st Hs He Hp; [auto|]. rewrite extScan_cons.
  destruct (Ascii.eqb c "/"%char).
  - destruct (matchedSlash st); [apply IH; auto | simpl; auto].
  - destruct (extStep_set c i st Hs He) as (A & B & C).
    destruct (IH (i - 1) (extStep c i st)) as (A' & B' & C'); [congruence|congruence|exact C|].
    rewrite A', B', A, B. auto.
Qed.

Lemma skipn_app_cons {A} (B : list A) (c : A) (rest : list A) :
  skipn (S (List.length B)) (B ++ c :: rest) = rest.
Proof. induction B as [|b B IH]; simpl; [reflexivity|]. exact IH. Qed.

Lemma extname_after_dot (B E : list ascii) (c : ascii) :
  c <> "/"%char -> E <> [] -> (forall x, In x E -> x <> "."%char /\ x <> "/"%char) ->
  extname (string_of_list_ascii (B ++ c :: "."%char :: E))
  = string_of_list_ascii ("."%char :: E).
Proof.
  intros Hc HE HEc. unfold extname. rewrite list_ascii_of_string_of_list_ascii.
  assert (Hlen : List.length (B ++ c :: "."%char :: E)
                 = (List.length B + 2 + List.length E)%nat)
    by (rewrite length_app; simpl; lia).
  assert (Hrev : rev (B ++ c :: "."%char :: E) = (rev E ++ "."%char :: c :: rev B)%list)
    by (rewrite rev_app_distr; simpl; rewrite <- !app_assoc; reflexivity).
  rewrite Hrev, Hlen.
  rewrite extScan_app by (intros x Hx; apply in_rev in Hx; apply HEc; exact Hx).
  destruct (rev E) as [|x l] eqn:ER.
  { exfalso. apply HE. rewrite <- (rev_involutive E), ER. reflexivity. }
  assert (HrevE : List.length (x :: l) = List.length E)
    by (rewrite <- ER, length_rev; reflexivity).
  rewrite extScan_ext;
    [| lia | intros y Hy; apply HEc; apply in_rev; rewrite ER; exact Hy].
  rewrite HrevE.
  set (j := Z.of_nat (List.length B + 2 + List.length E) - 1 - Z.of_nat (List.length E)).
  set (S0 := setEnd (Z.of_nat (List.length B + 2 + List.length E) - 1 + 1) extInit).
  assert (Hj : j = Z.of_nat (List.length B) + 1) by (unfold j; lia).
  rewrite !extScan_cons.
  replace (Ascii.eqb "."%char "/"%char) with false by reflexivity.
  destruct (Ascii.eqb_spec c "/"%char) as [|_]; [contradiction|].
  assert (Hd : extStep "."%char j S0 = setStartDot j S0).
  { unfold extStep, S0. cbv zeta. cbn [endPos startDot setEnd extInit].
    rewrite (proj2 (Z.eqb_neq (Z.of_nat (List.length B + 2 + List.length E) - 1 + 1) (-1)))
      by lia.
    reflexivity. }
  rewrite Hd.
  destruct (extStep_set c (j - 1) (setStartDot j S0)) as (A1 & B1 & C1);
    [simpl; lia | simpl; lia |].
  destruct (extScan_keeps (rev B) (j - 1 - 1) (extStep c (j - 1) (setStartDot j S0)))
    as (A2 & B2 & C2); [rewrite A1; simpl; lia | rewrite B1; simpl; lia | exact C1 |].
  set (st := extScan (rev B) (j - 1 - 1) (extStep c (j - 1) (setStartDot j S0))) in *.
  rewrite A1 in A2. rewrite B1 in B2. cbn [startDot endPos setStartDot S0 setEnd] in A2, B2.
  unfold S0 in B2. cbn [endPos setEnd] in B2.
  rewrite A2, B2.
  rewrite (proj2 (Z.eqb_neq j (-1))) by lia.
  rewrite (proj2 (Z.eqb_neq _ (-1))) by lia.
  rewrite (proj2 (Z.eqb_neq (preDotState st) 0)) by exact C2.
  rewrite (proj2 (Z.eqb_neq j (Z.of_nat (List.length B + 2 + List.length E) - 1 + 1 - 1)))
    by (pose proof (length_zero_iff_nil E); destruct (List.length E); [tauto | lia]).
  rewrite andb_false_r. cbn [orb andb].
  replace (Z.to_nat j) with (S (List.length B)) by lia.
  rewrite skipn_app_cons.
  replace (Z.to_nat (Z.of_nat (List.length B + 2 + List.length E) - 1 + 1 - j))
    with (S (List.length E)) by lia.
  simpl. rewrite firstn_all. reflexivity.
Qed.

Lemma exportFilename_chars (startStr endStr ext : string) :
  noSlash endStr ->
  exists B c, list_ascii_of_string (exportFilename startStr endStr ext)
              = (B ++ c :: "."%char :: list_ascii_of_string ext)%list /\ c <> "/"%char.
Proof.
  intros Hns. unfold exportFilename, noSlash in *. rewrite !list_ascii_of_string_app.
  destruct (list_ascii_of_string endStr) as [|x l] eqn:Le.
  - exists (list_ascii_of_string "expenses_" ++ list_ascii_of_string startStr
            ++ ["_"; "t"; "o"]%char)%list, "_"%char.
    split; [|discriminate]. simpl. rewrite <- !app_assoc. reflexivity.
  - destruct (exists_last (l := x :: l) ltac:(discriminate)) as (l' & c & Hl).
    exists (list_ascii_of_string "expenses_" ++ list_ascii_of_string startStr
            ++ list_ascii_of_string "_to_" ++ l')%list, c.
    split.
    + rewrite Hl. simpl. rewrite <- !app_assoc. reflexivity.
    + intros ->. apply Hns. rewrite Hl. apply in_or_app. right. now left.
Qed.

Lemma extname_exportFilename (startStr endStr : string) (format : string) :
  noSlash endStr ->
  (format = EXPORT_FORMATS.CSV \/ format = EXPORT_FORMATS.PDF \/ format = EXPORT_FORMATS.JSON) ->
  extname (exportFilename startStr endStr format) = "." ++ format.
Proof.
  intros Hns Hf.
  destruct (exportFilename_chars startStr endStr format Hns) as (B & c & Hl & Hc).
  rewrite <- (string_of_list_ascii_of_string (exportFilename startStr endStr format)), Hl.
  rewrite extname_after_dot; [| exact Hc | |].
  - destruct Hf as [-> | [-> | ->]]; reflexivity.
  - destruct Hf as [-> | [-> | ->]]; discriminate.
  - intros x Hx. destruct Hf as [-> | [-> | ->]]; simpl in Hx;
      repeat (destruct Hx as [<-|Hx]; [split; discriminate|]); destruct Hx.
Qed.

(** X14.  Only a PDF export can succeed, and its file is served back
    with the MIME type that [getExportFormats] advertises for PDF: Node's
    [path.extname] of the generated name is ".pdf", and [getContentType]
    maps it to "application/pdf".  This holds as long as the formatted end
    date has no '/' (the [YYYY-MM-DD] format never produces one). *)
Theorem exportExpenses_contentType (query : outcome (list exportDoc))
  (startStr endStr format : string) (writeFile : string -> outcome Z) (r : exportResult) :
  noSlash endStr ->
  exportExpenses query startStr endStr format writeFile = Done r ->
  ex_format r = EXPORT_FORMATS.PDF /\
  extname (filename r) = "." ++ ex_format r /\
  getContentType (filename r) = "application/pdf" /\
  Some (getContentType (filename r)) = advertisedMimeType (ex_format r).
Proof.
  intros Hns H. apply exportExpenses_Done in H as (Hn & Hf).
  rewrite Hn, Hf. unfold getContentType.
  rewrite (extname_exportFilename startStr endStr "pdf" Hns (or_intror (or_introl eq_refl))).
  split; [reflexivity|]. split; [reflexivity|]. split; reflexivity.
Qed.

Lemma exportExpenses_contentType_witness :
  exists r,
    noSlash "2024-01-31" /\
    exportExpenses (Done [sampleDoc (Some "Food") 250%Q]) "2024-01-01" "2024-01-31"
      EXPORT_FORMATS.PDF sampleWrite = Done r /\
    ex_format r = EXPORT_FORMATS.PDF /\
    extname (filename r) = "." ++ ex_format r /\
    getContentType (filename r) = "application/pdf" /\
    Some (getContentType (filename r)) = advertisedMimeType (ex_format r).
Proof.
  assert (Hns : noSlash "2024-01-31").
  { unfold noSlash. simpl. intros H.
    repeat (destruct H as [H|H]; [discriminate H|]). exact H. }
  destruct (exportExpenses (Done [sampleDoc (Some "Food") 250%Q]) "2024-01-01" "2024-01-31"
              EXPORT_FORMATS.PDF sampleWrite) as [r|m] eqn:E.
  - exists r. split; [exact Hns|]. split; [reflexivity|].
    exact (exportExpenses_contentType _ _ _ _ _ r Hns E).
  - vm_compute in E. discriminate E.
Defined.

(** *** The [exportData] controller *)

(** X15.  For a supported format, [exportData] passes the range on, as
    the start of the start day and the end of the end day, exactly when
    the end date's day is not before the start date's day and at most
    365 days after it: a range within one day is accepted, and so is
    one spanning 366 calendar days.  An end day before the start day is
    rejected as "Start date must be before end date", and more than 365
    days between the two days as "Date range cannot exceed 365 days". *)
Theorem exportDataRange_spec (s e : Z) (format : string) :
  supportedFormat format = true ->
  (exportDataRange (Some s) (Some e) format = Done (startOfDay s, endOfDay e)
   <-> 0 <= e / DAY - s / DAY <= 365) /\
  (e / DAY < s / DAY ->
   exportDataRange (Some s) (Some e) format = Thrown "Start date must be before end date") /\
  (365 < e / DAY - s / DAY ->
   exportDataRange (Some s) (Some e) format = Thrown "Date range cannot exceed 365 days").
Proof.
  intros Hs.
  assert (Hne : String.eqb format "" = false)
    by (destruct (supportedFormat_cases format Hs) as [-> | [-> | ->]]; reflexivity).
  unfold exportDataRange. rewrite Hne, Hs. cbn [negb].
  assert (HS : startOfDay s = DAY * (s / DAY))
    by (unfold startOfDay; rewrite Z.mod_eq by (unfold DAY; lia); lia).
  assert (HE : endOfDay e = DAY * (e / DAY) + DAY - 1)
    by (unfold endOfDay, startOfDay; rewrite Z.mod_eq by (unfold DAY; lia); lia).
  rewrite HS, HE.
  set (qs := s / DAY) in *. set (qe := e / DAY) in *.
  assert (Hd : qs <= qe -> diffDays (DAY * qe + DAY - 1) (DAY * qs) = qe - qs).
  { intros Hq. unfold diffDays.
    rewrite Z.quot_div_nonneg by (unfold DAY; lia).
    replace (DAY * qe + DAY - 1 - DAY * qs) with ((qe - qs) * DAY + (DAY - 1)) by lia.
    rewrite Z.div_add_l by (unfold DAY; lia).
    replace ((DAY - 1) / DAY) with 0 by reflexivity. lia. }
  destruct (Z.leb_spec (DAY * qe + DAY - 1) (DAY * qs)) as [Hle|Hgt].
  - assert (qe < qs) by (unfold DAY in *; lia).
    split; [split; [discriminate | lia]|]. split; [reflexivity | lia].
  - assert (Hq : qs <= qe) by (unfold DAY in *; lia).
    rewrite (Hd Hq).
    destruct (Z.ltb_spec 365 (qe - qs)).
    + split; [split; [discriminate | lia]|]. split; [lia | reflexivity].
    + split; [split; [intros _; lia | reflexivity]|]. split; lia.
Qed.

Lemma exportDataRange_spec_witness :
  supportedFormat EXPORT_FORMATS.CSV = true /\
  (exportDataRange (Some 0) (Some (365 * DAY)) EXPORT_FORMATS.CSV
     = Done (startOfDay 0, endOfDay (365 * DAY))
   <-> 0 <= 365 * DAY / DAY - 0 / DAY <= 365).
Proof.
  split; [reflexivity|].
  exact (proj1 (exportDataRange_spec 0 (365 * DAY) EXPORT_FORMATS.CSV eq_refl)).
Defined.

(** *** Cleanup of old exports *)

(** X16.  [cleanupOldExports] deletes exactly the files older than
    [maxAgeHours] (24 when not given) among those listed before the
    first entry on which a file-system call throws (its [statSync], or
    the [unlinkSync] of an old file): that first error silently ends the
    whole cleanup, and a failing directory listing deletes nothing. *)
Theorem cleanupOldExports_spec (listing : option (list dirEntry)) (maxAgeHours : option Q) :
  let m := match maxAgeHours with Some h => h | None => 24%Q end in
  cleanupOldExports listing maxAgeHours
  = match listing with
    | None => []
    | Some files =>
        map file (filter (staleEntry m) (takeWhile (fun f => negb (cleanupThrowsOn m f)) files))
    end.
Proof.
  cbv zeta. unfold cleanupOldExports.
  destruct listing as [files|]; [|reflexivity].
  set (m := match maxAgeHours with Some h => h | None => 24%Q end).
  induction files as [|f files IH]; [reflexivity|].
  cbn [cleanupLoop takeWhile]. unfold cleanupThrowsOn at 1.
  destruct (statResult f) as [mtime|] eqn:Est; [|reflexivity].
  destruct (olderThan m mtime (seenAt f)) eqn:Eo; destruct (unlinkOk f); cbn [andb negb];
    try reflexivity; cbn [filter]; unfold staleEntry at 1; rewrite Est, Eo;
    [cbn [map]; rewrite IH; reflexivity | exact IH | exact IH].
Qed.

(** *** The export summary *)

Lemma bucketAdd_keys_In (k k' : string) (x : Q) (o : list (string * bucket)) :
  In k' (map fst (bucketAdd k x o)) <-> k' = k \/ In k' (map fst o).
Proof.
  induction o as [|[k1 d1] o IH]; simpl; [intuition congruence|].
  destruct (String.eqb_spec k k1) as [->|Hne]; simpl; [intuition congruence|].
  rewrite IH. intuition congruence.
Qed.

Lemma bucketAdd_NoDup (k : string) (x : Q) (o : list (string * bucket)) :
  NoDup (map fst o) -> NoDup (map fst (bucketAdd k x o)).
Proof.
  induction o as [|[k1 d1] o IH]; simpl; intros Hnd.
  - repeat constructor. intros [].
  - inversion Hnd as [|? ? Hnin Hnd']; subst.
    destruct (String.eqb_spec k k1) as [->|Hne]; simpl; [exact Hnd|].
    constructor; [|exact (IH Hnd')].
    rewrite bucketAdd_keys_In. intros [->|H]; [exact (Hne eq_refl)|exact (Hnin H)].
Qed.

Lemma bucketAdd_In (k k' : string) (x : Q) (o : list (string * bucket)) (d : bucket) :
  NoDup (map fst o) -> In (k', d) (bucketAdd k x o) ->
  (k' = k /\
   ((exists d0, In (k, d0) o /\
                d = {| bk_amount := (bk_amount d0 + x)%Q; bk_count := bk_count d0 + 1 |}) \/
    (~ In k (map fst o) /\ d = {| bk_amount := (0 + x)%Q; bk_count := 0 + 1 |}))) \/
  (k' <> k /\ In (k', d) o).
Proof.
  induction o as [|[k1 d1] o IH]; simpl; intros Hnd Hin.
  - destruct Hin as [Heq|[]]. injection Heq as -> <-. left. split; [reflexivity|].
    right. split; [intros []|reflexivity].
  - inversion Hnd as [|? ? Hnin Hnd']; subst.
    destruct (String.eqb_spec k k1) as [->|Hne].
    + destruct Hin as [Heq|Hin].
      * injection Heq as -> <-. left. split; [reflexivity|]. left.
        exists d1. split; [now left|reflexivity].
      * right. split; [|now right].
        intros ->. apply Hnin. apply (in_map fst) in Hin. exact Hin.
    + destruct Hin as [Heq|Hin].
      * injection Heq as -> ->. right. split; [exact (not_eq_sym Hne)|now left].
      * destruct (IH Hnd' Hin) as [[-> [(d0 & Hd0 & ->)|(Hn & ->)]]|[Hk Hin']].
        -- left. split; [reflexivity|]. left. exists d0. split; [now right|reflexivity].
        -- left. split; [reflexivity|]. right. split; [|reflexivity].
           intros [H|H]; [exact (Hne (eq_sym H))|exact (Hn H)].
        -- right. split; [exact Hk|now right].
Qed.

Lemma sumQ_snoc (l : list Q) (x : Q) : sumQ (l ++ [x]) = (sumQ l + x)%Q.
Proof. unfold sumQ. rewrite fold_left_app. reflexivity. Qed.

Lemma NoDup_snoc {A} (l : list A) (a : A) : NoDup l -> ~ In a l -> NoDup (l ++ [a]).
Proof.
  intros Hnd Hn. apply (Permutation_NoDup (Permutation_cons_append l a)).
  constructor; assumption.
Qed.

Lemma tallyBy_spec (key : exportRow -> string) (rows : list exportRow) :
  NoDup (map fst (tallyBy key rows)) /\
  (forall k, In k (map fst (tallyBy key rows)) <->
     (exists e, In e rows /\ key e = k) /\ ~ In k objectPrototypeMembers) /\
  (forall k d, In (k, d) (tallyBy key rows) ->
     d = {| bk_amount := sumQ (map row_amount (filter (fun e => String.eqb (key e) k) rows));
            bk_count := List.length (filter (fun e => String.eqb (key e) k) rows) |}).
Proof.
  induction rows as [|x rows IH] using rev_ind.
  - split; [constructor|]. split; [|intros k d []].
    intros k. split; [intros []|intros [(e & [] & _) _]].
  - unfold tallyBy in *. rewrite fold_left_app. cbn [fold_left].
    set (o := fold_left (fun o e => tally (key e) (row_amount e) o) rows []) in *.
    destruct IH as (H1 & H2 & H3).
    assert (Hfilt : forall k, key x <> k ->
              filter (fun e => String.eqb (key e) k) (rows ++ [x])
              = filter (fun e => String.eqb (key e) k) rows).
    { intros k Hk. rewrite filter_app. cbn [filter].
      destruct (String.eqb_spec (key x) k); [contradiction|]. apply app_nil_r. }
    assert (Hin_app : forall k, (exists e, In e (rows ++ [x]) /\ key e = k) <->
                                (exists e, In e rows /\ key e = k) \/ key x = k).
    { intros k. split.
      - intros (e & He & Hk). apply in_app_or in He as [He|[<-|[]]]; [left; now exists e|now right].
      - intros [(e & He & Hk)|Hk]; [exists e; split; [apply in_or_app; now left|exact Hk]|].
        exists x. split; [apply in_or_app; right; now left|exact Hk]. }
    unfold tally.
    destruct (existsb (String.eqb (key x)) objectPrototypeMembers) eqn:Hproto.
    + apply existsb_exists in Hproto as (p & Hp & Hpx). apply String.eqb_eq in Hpx. subst p.
      split; [exact H1|]. split.
      * intros k. rewrite H2, Hin_app. split; [tauto|].
        intros [[H|H] Hn]; [tauto|]. subst k. contradiction.
      * intros k d Hkd. rewrite Hfilt; [exact (H3 k d Hkd)|].
        intros Heq. subst k. apply in_map with (f := fst) in Hkd. apply H2 in Hkd as [_ Hn]. contradiction.
    + assert (Hnp : ~ In (key x) objectPrototypeMembers).
      { intros H. assert (existsb (String.eqb (key x)) objectPrototypeMembers = true)
          by (apply existsb_exists; exists (key x); split; [exact H|apply String.eqb_refl]).
        congruence. }
      split; [now apply bucketAdd_NoDup|]. split.
      * intros k. rewrite bucketAdd_keys_In, H2, Hin_app.
        split; [intros [->|[He Hn]]; split; tauto|].
        intros [[He|He] Hn]; [now right|now left].
      * intros k d Hkd. destruct (bucketAdd_In _ _ _ _ _ H1 Hkd)
          as [[-> [(d0 & Hd0 & ->)|(Hn & ->)]]|[Hk Hkd']].
        -- rewrite (H3 _ _ Hd0). rewrite filter_app. cbn [filter].
           rewrite String.eqb_refl, map_app. cbn [map].
           rewrite sumQ_snoc, length_app. reflexivity.
        -- assert (Hnone : filter (fun e => String.eqb (key e) (key x)) rows = []).
           { apply filter_none. intros e He.
             destruct (String.eqb_spec (key e) (key x)) as [Hk|]; [|reflexivity].
             exfalso. apply Hn. apply H2. split; [exists e; split; assumption|exact Hnp]. }
           rewrite filter_app, Hnone. cbn [filter]. rewrite String.eqb_refl. reflexivity.
        -- rewrite Hfilt by (intros Heq; subst k; exact (Hk eq_refl)). exact (H3 k d Hkd').
Qed.

Lemma filter_partition_perm {A} (f : A -> bool) (l : list A) :
  Permutation (filter f l ++ filter (fun x => negb (f x)) l) l.
Proof.
  induction l as [|a l IH]; simpl; [reflexivity|].
  destruct (f a); simpl.
  - now apply perm_skip.
  - rewrite <- Permutation_middle. now apply perm_skip.
Qed.

Lemma objectEntries_perm {A} (o : list (string * A)) : Permutation (objectEntries o) o.
Proof.
  unfold objectEntries.
  eapply perm_trans; [|apply filter_partition_perm].
  apply Permutation_app_tail. apply sort_by_perm.
Qed.

Lemma breakdown_spec (key : exportRow -> string) (rows : list exportRow) (total : Q) :
  let bd := breakdown total (tallyBy key rows) in
  NoDup (map be_key bd) /\
  (forall k, In k (map be_key bd) <->
     (exists e, In e rows /\ key e = k) /\ ~ In k objectPrototypeMembers) /\
  (forall be, In be bd ->
     let mine := filter (fun e => String.eqb (key e) (be_key be)) rows in
     be_count be = List.length mine /\ be_amount be = toFixed 2 (sumQ (map row_amount mine))).
Proof.
  cbv zeta. destruct (tallyBy_spec key rows) as (H1 & H2 & H3).
  assert (Hkeys : map be_key (breakdown total (tallyBy key rows))
                  = map fst (objectEntries (tallyBy key rows)))
    by (unfold breakdown; rewrite map_map; reflexivity).
  assert (Hp : Permutation (map fst (objectEntries (tallyBy key rows)))
                           (map fst (tallyBy key rows)))
    by (apply Permutation_map, objectEntries_perm).
  rewrite Hkeys. split; [exact (Permutation_NoDup (Permutation_sym Hp) H1)|]. split.
  - intros k. rewrite <- H2. split; apply Permutation_in; [exact Hp|exact (Permutation_sym Hp)].
  - intros be Hbe. unfold breakdown in Hbe. apply in_map_iff in Hbe as ([k d] & <- & Hkd).
    apply (Permutation_in _ (objectEntries_perm _)) in Hkd.
    rewrite (H3 k d Hkd). cbn [be_key be_count be_amount fst snd bk_count bk_amount].
    split; reflexivity.
Qed.

Lemma fold_left_amounts (rows : list exportRow) (a : Q) :
  fold_left (fun s e => (s + row_amount e)%Q) rows a = fold_left Qplus (map row_amount rows) a.
Proof. revert a. induction rows as [|e rows IH]; intros a; simpl; [reflexivity|]. apply IH. Qed.

(** X17.  The export summary counts every row; its total is the sum of
    the amounts rounded to 2 decimals.  Each breakdown lists every key
    (the category name, "Unknown" for a missing or empty one; the payment
    method) occurring in the rows exactly once, except keys naming a
    member of [Object.prototype] such as "toString" or "constructor",
    whose rows are silently left out; each entry counts the rows with its
    key and sums their amounts, rounded to 2 decimals. *)
Theorem calculateExportSummary_breakdown (rows : list exportRow) :
  let s := calculateExportSummary rows in
  totalExpenses s = List.length rows /\
  totalAmount s = toFixed 2 (sumQ (map row_amount rows)) /\
  NoDup (map be_key (categoryBreakdown s)) /\
  (forall k, In k (map be_key (categoryBreakdown s)) <->
     (exists e, In e rows /\ categoryKey e = k) /\ ~ In k objectPrototypeMembers) /\
  (forall be, In be (categoryBreakdown s) ->
     let mine := filter (fun e => String.eqb (categoryKey e) (be_key be)) rows in
     be_count be = List.length mine /\ be_amount be = toFixed 2 (sumQ (map row_amount mine))) /\
  NoDup (map be_key (paymentMethodBreakdown s)) /\
  (forall k, In k (map be_key (paymentMethodBreakdown s)) <->
     (exists e, In e rows /\ row_paymentMethod e = k) /\ ~ In k objectPrototypeMembers) /\
  (forall be, In be (paymentMethodBreakdown s) ->
     let mine := filter (fun e => String.eqb (row_paymentMethod e) (be_key be)) rows in
     be_count be = List.length mine /\ be_amount be = toFixed 2 (sumQ (map row_amount mine))).
Proof.
  cbv zeta. unfold calculateExportSummary. cbv zeta.
  cbn [totalExpenses totalAmount categoryBreakdown paymentMethodBreakdown].
  set (total := fold_left (fun s e => (s + row_amount e)%Q) rows 0%Q).
  destruct (breakdown_spec categoryKey rows total) as (C1 & C2 & C3).
  destruct (breakdown_spec row_paymentMethod rows total) as (P1 & P2 & P3).
  unfold tallyBy in *.
  split; [reflexivity|]. split; [unfold total; rewrite fold_left_amounts; reflexivity|].
  split; [exact C1|]. split; [exact C2|]. split; [exact C3|].
  split; [exact P1|]. split; [exact P2|exact P3].
Qed.
